(** * River water-quality service: a shallow embedding and its properties

    The development follows the two programs of the repository:

    - [Backend] embeds [Backend/backend.py]: the generator of the 30-day
      history, the linear trend forecast, the colour block that encodes the
      severity of the latest reading, and the [/data] endpoint with its
      error envelope;
    - [Frontend] embeds the two functions of [Frontend/App.py] that carry
      logic: [make_river_map] (colour of the river) and [check_alerts].

    Numbers.  Python floats are modelled by exact rationals ([Q]) extended
    with the one special value the code can produce, [NaN] (numpy's mean of
    an empty array).  Arithmetic is exact: rounding is not modelled.
    Calendar days are day numbers in [Z]; adding [timedelta(days=k)] adds
    [k].

    Effects.  The code logs through [logger.error] and raises exceptions;
    both are threaded through a small monad [M] whose state is the log. *)

From Stdlib Require Import List String Ascii Bool ZArith QArith Lia Lqa.
Import ListNotations.

Set Implicit Arguments.

(* ================================================================= *)
(** ** Python values shared by both programs *)

Module Py.

(** *** Floats *)

Inductive npfloat : Type :=
| Fin (q : Q)
| NaN.

Definition fadd (a b : npfloat) : npfloat :=
  match a, b with
  | Fin x, Fin y => Fin (x + y)
  | _, _ => NaN
  end.

Definition fsub (a b : npfloat) : npfloat :=
  match a, b with
  | Fin x, Fin y => Fin (x - y)
  | _, _ => NaN
  end.

Definition fmul (a b : npfloat) : npfloat :=
  match a, b with
  | Fin x, Fin y => Fin (x * y)
  | _, _ => NaN
  end.

Definition fdiv (a b : npfloat) : npfloat :=
  match a, b with
  | Fin x, Fin y => Fin (x / y)
  | _, _ => NaN
  end.

(** Strict comparison of rationals, as a boolean. *)
Definition Qltb (x y : Q) : bool :=
  (Qnum x * QDen y <? Qnum y * QDen x)%Z.

(** [a < b] on floats: every comparison with [NaN] is [False]. *)
Definition flt (a b : npfloat) : bool :=
  match a, b with
  | Fin x, Fin y => Qltb x y
  | _, _ => false
  end.

(** [a > b] on floats. *)
Definition fgt (a b : npfloat) : bool := flt b a.

Definition isnan (a : npfloat) : bool :=
  match a with NaN => true | Fin _ => false end.

(** Equality of floats up to the value of the rational. *)
Definition feq (a b : npfloat) : Prop :=
  match a, b with
  | Fin x, Fin y => x == y
  | NaN, NaN => True
  | _, _ => False
  end.

(** *** Exceptions and the log *)

Inductive ExnClass : Type :=
| IndexError
| ValueError
| TypeError
| RuntimeError.

(** An exception: its class and the text [str(e)] gives. *)
Record Exn : Type := mkExn {
  exn_class : ExnClass;
  exn_str : string
}.

Definition Log : Type := list string.

Inductive Outcome (A : Type) : Type :=
| Returned (a : A)
| Raised (e : Exn).

Arguments Returned {A} a.
Arguments Raised {A} e.

(** A computation reads the log written so far and gives its outcome
    together with the log it leaves. *)
Definition M (A : Type) : Type := Log -> Outcome A * Log.

Definition ret {A} (a : A) : M A := fun l => (Returned a, l).

Definition raise {A} (e : Exn) : M A := fun l => (Raised e, l).

Definition bind {A B} (m : M A) (k : A -> M B) : M B :=
  fun l =>
    match m l with
    | (Returned a, l') => k a l'
    | (Raised e, l') => (Raised e, l')
    end.

(** [try: body except Exception as e: handler e] *)
Definition try_except {A} (body : M A) (handler : Exn -> M A) : M A :=
  fun l =>
    match body l with
    | (Returned a, l') => (Returned a, l')
    | (Raised e, l') => handler e l'
    end.

(** [logger.error(msg)] *)
Definition logger_error (msg : string) : M unit :=
  fun l => (Returned tt, l ++ [msg]).

Declare Scope py_scope.
Delimit Scope py_scope with py.

Notation "x <- m ;; k" := (bind m (fun x => k))
  (at level 61, m at next level, right associativity) : py_scope.
Notation "m ;;; k" := (bind m (fun _ => k))
  (at level 61, right associativity) : py_scope.

(** *** Sequences *)

(** [xs[-1]] on a pandas index, and [s.iloc[-1]] on a Series. *)
Fixpoint last_opt {A} (xs : list A) : option A :=
  match xs with
  | [] => None
  | [x] => Some x
  | _ :: t => last_opt t
  end.

Definition index_last {A} (xs : list A) : M A :=
  match last_opt xs with
  | Some x => ret x
  | None => raise (mkExn IndexError "index -1 is out of bounds for axis 0 with size 0")
  end.

Definition iloc_last {A} (xs : list A) : M A :=
  match last_opt xs with
  | Some x => ret x
  | None => raise (mkExn IndexError "single positional indexer is out-of-bounds")
  end.

(** Element-wise operation on two arrays of the same shape. *)
Fixpoint map2 {A B C} (f : A -> B -> C) (xs : list A) (ys : list B) : list C :=
  match xs, ys with
  | x :: xs', y :: ys' => f x y :: map2 f xs' ys'
  | _, _ => []
  end.

(** [range(n)] *)
Definition range (n : nat) : list nat := seq 0 n.

(** Python's built-in [any]. *)
Definition any (bs : list bool) : bool := existsb (fun b => b) bs.

(** [a.clip(a_min, a_max)], one element: [minimum(a_max, maximum(a, a_min))]. *)
Definition clip (a_min a_max x : Q) : Q :=
  let m := if Qltb x a_min then a_min else x in
  if Qltb a_max m then a_max else m.

(** [s.diff()]: each element minus the one before it; the first has no
    predecessor and is [NaN] ([s - s.shift(1)]). *)
Definition shift1 (s : list npfloat) : list npfloat :=
  match s with
  | [] => []
  | _ => NaN :: removelast s
  end.

Definition diff (s : list npfloat) : list npfloat := map2 fsub s (shift1 s).

(** [s.dropna()] *)
Definition dropna (s : list npfloat) : list npfloat :=
  filter (fun x => negb (isnan x)) s.

Definition fsum (s : list npfloat) : npfloat := fold_left fadd s (Fin 0).

(** [np.mean(s)]: the sum over the count; [NaN] on an empty array (numpy
    warns, it does not raise). *)
Definition np_mean (s : list npfloat) : npfloat :=
  match s with
  | [] => NaN
  | _ => fdiv (fsum s) (Fin (inject_Z (Z.of_nat (List.length s))))
  end.

(** [s.capitalize()] on ASCII text. *)
Definition upper (c : ascii) : ascii :=
  let n := nat_of_ascii c in
  if andb (97 <=? n)%nat (n <=? 122)%nat then ascii_of_nat (n - 32) else c.

Definition lower (c : ascii) : ascii :=
  let n := nat_of_ascii c in
  if andb (65 <=? n)%nat (n <=? 90)%nat then ascii_of_nat (n + 32) else c.

Fixpoint lower_all (s : string) : string :=
  match s with
  | EmptyString => EmptyString
  | String c s' => String (lower c) (lower_all s')
  end.

Definition capitalize (s : string) : string :=
  match s with
  | EmptyString => EmptyString
  | String c s' => String (upper c) (lower_all s')
  end.

End Py.

(* ================================================================= *)
(** ** The wire format shared by producer and consumer *)

Module Wire.

(** One row of [historical_data]. *)
Record Observation : Type := mkObservation {
  date : Z;
  pH : Q;
  DO : Q;
  rainfall : Q;
  fecal_coliform : Q
}.

(** One row of [forecast_data]. *)
Record ForecastPoint : Type := mkForecastPoint {
  fdate : Z;
  forecast_fecal : Py.npfloat
}.

(** The dictionary [generate_data] returns. *)
Record DataPayload : Type := mkDataPayload {
  historical_data : list Observation;
  forecast_data : list ForecastPoint;
  satellite_image_base64 : string;
  latest_fecal : Q
}.

End Wire.

(* ================================================================= *)
(** ** Backend/backend.py *)

Module Backend.
Import Py Wire.
Local Open Scope py_scope.

(** *** The random source

    The four calls to [np.random] are modelled by the samples they return:
    sample [i] of each call, for every position [i]. *)
Record Draws : Type := mkDraws {
  draw_pH : nat -> Q;          (* np.random.normal(7.0, 0.2, 30) *)
  draw_DO : nat -> Q;          (* np.random.normal(8.0, 0.4, 30) *)
  draw_rainfall : nat -> Q;    (* np.random.exponential(5, 30) *)
  draw_lognormal : nat -> Q    (* np.random.lognormal(3.0, 0.4, 30) *)
}.

(** The array of the first [size] samples of a call. *)
Definition sample (f : nat -> Q) (size : nat) : list Q := map f (range size).

(** *** Dates *)

(** [pd.date_range(end=end_, periods=periods)], daily frequency. *)
Definition date_range (end_ : Z) (periods : nat) : list Z :=
  map (fun i => end_ - (Z.of_nat periods - 1) + Z.of_nat i)%Z (range periods).

(** *** The history *)

(** Line 23: the log-normal draw is clipped, then half the rainfall of the
    same position is added. *)
Definition fecal_column (lognormal rainfall : list Q) : list Q :=
  map2 Qplus (map (clip 100 1000) lognormal) (map (fun r => r * (1 # 2)) rainfall).

(** [pd.DataFrame] over the five columns, one row per position. *)
Fixpoint DataFrame (dates : list Z) (pH DO rainfall fecal_coliform : list Q)
  : list Observation :=
  match dates, pH, DO, rainfall, fecal_coliform with
  | d :: dates', p :: pH', o :: DO', r :: rainfall', f :: fecal' =>
      mkObservation d p o r f :: DataFrame dates' pH' DO' rainfall' fecal'
  | _, _, _, _, _ => []
  end.

(** *** The trend forecast (lines 33-40) *)

Definition trend_forecast (dates : list Z) (fecal : list Q) : M (list ForecastPoint) :=
  last_fecal <- iloc_last fecal ;;
  let trend := np_mean (dropna (diff (map Fin fecal))) in
  last_date <- index_last dates ;;
  let forecast_dates :=
    map (fun i => last_date + Z.of_nat (i + 1))%Z (range 3) in
  let forecast_fecal :=
    map (fun i => fadd (Fin last_fecal)
                       (fmul trend (Fin (inject_Z (Z.of_nat (i + 1))))))
        (range 3) in
  ret (map2 mkForecastPoint forecast_dates forecast_fecal).

(** *** The colour block (lines 43-50) *)

(** Height, then width, then the three channels red, green, blue. *)
Definition Image : Type := list (list (list Q)).

(** [np.zeros((h, w, c))] *)
Definition np_zeros (h w c : nat) : Image := repeat (repeat (repeat 0 c) w) h.

Fixpoint set_at (k : nat) (v : Q) (px : list Q) : list Q :=
  match px, k with
  | [], _ => []
  | _ :: t, O => v :: t
  | x :: t, S k' => x :: set_at k' v t
  end.

(** [image[:, :, k] = v] *)
Definition set_channel (k : nat) (v : Q) (image : Image) : Image :=
  map (map (set_at k v)) image.

Definition severity_image (latest_fecal : Q) : Image :=
  let image := np_zeros 50 50 3 in
  if Qltb latest_fecal 400 then
    set_channel 1 1 image
  else if Qltb latest_fecal 800 then
    set_channel 1 1 (set_channel 0 1 image)
  else
    set_channel 0 1 image.

(** *** The response *)

Inductive Content : Type :=
| DataContent (data : DataPayload)
| ErrorContent (error : string).

Record Response : Type := mkResponse {
  content : Content;
  status_code : Z
}.

Section Service.

(** [imsave] to PNG followed by [base64.b64encode]: library code, kept
    abstract. *)
Variable png_base64 : Image -> string.

(** What building [JSONResponse(content=data)] does with a payload: [None]
    when it renders, [Some e] when rendering raises [e].  The call sits
    inside the [try] of the endpoint. *)
Variable json_render_error : DataPayload -> option Exn.

(** [JSONResponse(content=..., status_code=...)]; an error envelope is a
    dictionary with one string and always renders. *)
Definition JSONResponse (c : Content) (status : Z) : M Response :=
  match c with
  | DataContent data =>
      match json_render_error data with
      | Some e => raise e
      | None => ret (mkResponse c status)
      end
  | ErrorContent _ => ret (mkResponse c status)
  end.

Definition generate_data (today : Z) (d : Draws) : M DataPayload :=
  try_except
    (let dates := date_range today 30 in
     let pH := sample (draw_pH d) 30 in
     let DO := sample (draw_DO d) 30 in
     let rainfall := sample (draw_rainfall d) 30 in
     let fecal_coliform := fecal_column (sample (draw_lognormal d) 30) rainfall in
     let historical_data := DataFrame dates pH DO rainfall fecal_coliform in
     forecast_data <-
       trend_forecast dates (map Wire.fecal_coliform historical_data) ;;
     latest_fecal <- iloc_last (map Wire.fecal_coliform historical_data) ;;
     let image := severity_image latest_fecal in
     let image_base64 := png_base64 image in
     ret (mkDataPayload historical_data forecast_data image_base64 latest_fecal))
    (fun e =>
       logger_error ("Error in generate_data: " ++ exn_str e) ;;;
       raise e).

(** The body of the endpoint, for the [generate_data] it is run with. *)
Definition get_water_quality_data_with (generate_data : M DataPayload) : M Response :=
  try_except
    (data <- generate_data ;;
     JSONResponse (DataContent data) 200)
    (fun e =>
       logger_error ("Error in /data endpoint: " ++ exn_str e) ;;;
       JSONResponse (ErrorContent ("Internal Server Error: " ++ exn_str e)) 500).

Definition get_water_quality_data (today : Z) (d : Draws) : M Response :=
  get_water_quality_data_with (generate_data today d).

End Service.

End Backend.

(* ================================================================= *)
(** ** Frontend/App.py *)

Module Frontend.
Import Py Wire.

(** What [make_river_map] puts on the map. *)
Record RiverMap : Type := mkRiverMap {
  polyline_color : string;
  polyline_popup : string;
  marker_popup : string;
  marker_icon_color : string
}.

Section Dashboard.

(** Python's formatting of floats, [f'{x:.1f}'] and [f'{x}']: built-in
    behaviour, kept abstract. *)
Variable format_1f : npfloat -> string.
Variable format_float : Q -> string.

Definition make_river_map (fecal_value : npfloat) : RiverMap :=
  let color :=
    (if flt fecal_value (Fin 400) then "green"
     else if flt fecal_value (Fin 800) then "yellow"
     else "red")%string in
  mkRiverMap color
             ("Pollution: " ++ capitalize color)
             ("Fecal Coliform: " ++ format_1f fecal_value ++ " CFU/100mL")
             color.

Definition warning_alert (threshold : Q) : string :=
  "Warning: Forecasted fecal coliform above " ++ format_float threshold
    ++ " CFU/100mL.".

Definition critical_alert : string :=
  "Critical: High pollution risk detected. Take action.".

Definition check_alerts (forecast_data : list ForecastPoint) (threshold : Q)
  : list string :=
  let alerts := [] in
  let alerts :=
    if any (map (fun x => fgt x (Fin threshold))
                (map forecast_fecal forecast_data))
    then alerts ++ [warning_alert threshold] else alerts in
  let alerts :=
    if any (map (fun x => fgt x (Fin 800))
                (map forecast_fecal forecast_data))
    then alerts ++ [critical_alert] else alerts in
  alerts.

End Dashboard.

End Frontend.

(* ================================================================= *)
(** ** The vocabulary of the specification

    These definitions follow the words of the specification, not the code;
    the theorems below compare the code with them. *)

Module Spec.
Import Py Wire.

Inductive SeverityBand : Type := LOW | MEDIUM | HIGH.

(** The band of a reading: below 400, from 400 up to but excluding 800,
    800 and above. *)
Inductive in_band (value : Q) : SeverityBand -> Prop :=
| in_low : value < 400 -> in_band value LOW
| in_medium : 400 <= value -> value < 800 -> in_band value MEDIUM
| in_high : 800 <= value -> in_band value HIGH.

(** Red, green and blue of the colour that stands for a band. *)
Definition band_rgb (b : SeverityBand) : list Q :=
  match b with
  | LOW => [0; 1; 0]
  | MEDIUM => [1; 1; 0]
  | HIGH => [1; 0; 0]
  end.

(** The artifact of a band: 50 rows of 50 pixels, all of the band's colour. *)
Definition band_artifact (b : SeverityBand) : Backend.Image :=
  repeat (repeat (band_rgb b) 50) 50.

(** The colour name of a band on the map. *)
Definition band_color_name (b : SeverityBand) : string :=
  match b with
  | LOW => "green"
  | MEDIUM => "yellow"
  | HIGH => "red"
  end.

(** The day-over-day differences of a series: [n] values give [n - 1]. *)
Fixpoint first_differences (xs : list Q) : list Q :=
  match xs with
  | x :: ((y :: _) as t) => (y - x) :: first_differences t
  | _ => []
  end.

Definition Qsum (xs : list Q) : Q := fold_right Qplus 0 xs.

Definition arithmetic_mean (xs : list Q) : Q :=
  Qsum xs / inject_Z (Z.of_nat (List.length xs)).

(** The observation of position [i] in the 30-day history that ends on
    [today]: the day, the three draws of that position, and the log-normal
    draw clamped to [100, 1000] and then increased by half the rainfall. *)
Definition observation_at (today : Z) (d : Backend.Draws) (i : nat) : Observation :=
  mkObservation (today - 29 + Z.of_nat i)%Z
                (Backend.draw_pH d i)
                (Backend.draw_DO d i)
                (Backend.draw_rainfall d i)
                (clip 100 1000 (Backend.draw_lognormal d i)
                 + Backend.draw_rainfall d i * (1 # 2)).

(** The three points that continue a series linearly: day [k] after
    [last_date] carries [last + trend * k]. *)
Definition linear_forecast (last_date : Z) (last trend : Q) : list ForecastPoint :=
  [ mkForecastPoint (last_date + 1)%Z (Fin (last + trend * 1));
    mkForecastPoint (last_date + 2)%Z (Fin (last + trend * 2));
    mkForecastPoint (last_date + 3)%Z (Fin (last + trend * 3)) ].

(** The failure response: an envelope that carries the message of the
    failure, with status 500; and the line the service logs about it. *)
Definition error_response (e : Exn) : Backend.Response :=
  Backend.mkResponse
    (Backend.ErrorContent ("Internal Server Error: " ++ exn_str e)) 500.

Definition error_line (e : Exn) : string :=
  ("Error in /data endpoint: " ++ exn_str e)%string.

(** Some forecast value is strictly above the bound. *)
Definition exceeds (forecast : list ForecastPoint) (bound : Q) : Prop :=
  exists p q, In p forecast /\ forecast_fecal p = Fin q /\ bound < q.

End Spec.

(* ================================================================= *)
(** ** Concrete inputs

    Inputs on which the theorems below are instantiated. *)

Module Scenario.
Import Py Wire.

(** Dry weather with a little more rain every day; low log-normal draws. *)
Definition steady_draws : Backend.Draws :=
  Backend.mkDraws (fun _ => 7) (fun _ => 8)
                  (fun i => inject_Z (Z.of_nat i)) (fun _ => 20).

(** 2000 units of rain every day. *)
Definition storm_draws : Backend.Draws :=
  Backend.mkDraws (fun _ => 7) (fun _ => 8) (fun _ => 2000) (fun _ => 20).

(** An encoder that keeps the colour of the first pixel only. *)
Definition first_pixel_code (image : Backend.Image) : string :=
  match image with
  | (pixel :: _) :: _ =>
      (if Qltb 0 (nth 0 pixel 0) then "R" else "-")
        ++ (if Qltb 0 (nth 1 pixel 0) then "G" else "-")
  | _ => ""
  end%string.

Definition plain_1f (_ : npfloat) : string := "?"%string.

Definition plain_float (_ : Q) : string := "?"%string.

(** Thirty readings that rise by 10 a day, from 560 on day 0 to 850 on
    day 29. *)
Definition rising_history : list Observation :=
  map (fun i => mkObservation (Z.of_nat i) 7 8 0
                              (560 + 10 * inject_Z (Z.of_nat i)))
      (seq 0 30).

(** A generation step that forecasts from an empty history. *)
Definition generate_from_nothing : M DataPayload :=
  bind (Backend.trend_forecast [] [])
       (fun forecast => ret (mkDataPayload [] forecast "" 0)).

Definition forecast_of (values : list Q) : list ForecastPoint :=
  map2 mkForecastPoint (map Z.of_nat (seq 1 (List.length values))) (map Fin values).

End Scenario.

(* ================================================================= *)
(** ** The handler of [generate_data] (backend.py, lines 62-64) *)

Module Guard.
Import Py Wire.
Local Open Scope py_scope.

(** [except Exception as e]: log the failure and raise it again. *)
Definition generate_data_except (e : Exn) : M DataPayload :=
  logger_error ("Error in generate_data: " ++ exn_str e) ;;;
  raise e.

(** [generate_data] around the statements of its [try] block. *)
Definition guarded (try_block : M DataPayload) : M DataPayload :=
  try_except try_block generate_data_except.

End Guard.

(* ================================================================= *)
(** ** Rendering the payload (backend.py, line 70) *)

Module Json.
Import Py Wire.

(** What [JSONResponse(content=data)] does with the dictionary that
    [generate_data] returns.  The response renders its content with
    [json.dumps]; the rows of [historical_data] and of [forecast_data]
    come from [to_dict(orient='records')] and carry a pandas [Timestamp]
    under ['date'], which [json.dumps] does not serialise: the first row
    met raises [TypeError].  A payload without any row renders. *)
Definition dumps_error (data : DataPayload) : option Exn :=
  match historical_data data, forecast_data data with
  | [], [] => None
  | _, _ =>
      Some (mkExn TypeError "Object of type Timestamp is not JSON serializable")
  end.

End Json.

(* ================================================================= *)
(** ** The page of Frontend/App.py (lines 51-73 and 110-134) *)

Module Dashboard.
Import Py Wire.

(** What the page asks streamlit to show. *)
Inductive Widget : Type :=
| st_error (body : string)
| st_warning (body : string)
| st_success (body : string).

(** The exceptions that can leave the statements of the fetch block. *)
Inductive FetchExn : Type :=
| ConnectionError (message : string)
| HTTPError (status : Z) (message : string)
| KeyError (key : string)
| DecodeError (message : string).

Definition fetch_str (e : FetchExn) : string :=
  match e with
  | ConnectionError m => m
  | HTTPError _ m => m
  | KeyError k => ("'" ++ k ++ "'")%string
  | DecodeError m => m
  end.

(** [except requests.exceptions.RequestException]: connection and status
    errors are caught, the others are not. *)
Definition is_RequestException (e : FetchExn) : bool :=
  match e with
  | ConnectionError _ | HTTPError _ _ => true
  | KeyError _ | DecodeError _ => false
  end.

(** What [requests.get] meets: no answer, or the response of the backend. *)
Inductive Reply : Type :=
| NoReply (message : string)
| Answer (response : Backend.Response).

(** What the fetch block leaves to the rest of the page. *)
Record PageData : Type := mkPageData {
  page_historical_data : list Observation;
  page_forecast_data : list ForecastPoint;
  page_satellite_image : Backend.Image;
  page_latest_fecal : Q
}.

Inductive PageStart : Type :=
| Fetched (data : PageData)
| Stopped (shown : Widget)
| Uncaught (e : FetchExn).

(** The trend chart: two lines and the threshold. *)
Record Chart : Type := mkChart {
  recent_dates : list Z;
  recent_values : list Q;
  forecast_dates : list Z;
  forecast_values : list npfloat;
  threshold_line : Q
}.

(** [xs[-7:]]: the last seven elements, all of them when there are fewer. *)
Definition last7 {A} (xs : list A) : list A := skipn (List.length xs - 7) xs.

Section Page.

(** The text [requests] gives a status error, [imread] on the decoded
    base64 text ([None] when it raises) and the formatting of a float:
    library code, kept abstract. *)
Variable http_error_message : Z -> string.
Variable imread_base64 : string -> option Backend.Image.
Variable format_float : Q -> string.

(** [response.raise_for_status()]: statuses 400 to 599 raise. *)
Definition raise_for_status (response : Backend.Response) : option FetchExn :=
  let status := Backend.status_code response in
  if ((400 <=? status) && (status <? 600))%Z
  then Some (HTTPError status (http_error_message status))
  else None.

(** The statements of the [try] block, lines 53-70. *)
Definition fetch_block (reply : Reply) : FetchExn + PageData :=
  match reply with
  | NoReply message => inl (ConnectionError message)
  | Answer response =>
      match raise_for_status response with
      | Some e => inl e
      | None =>
          match Backend.content response with
          | Backend.ErrorContent _ => inl (KeyError "historical_data")
          | Backend.DataContent data =>
              match imread_base64 (satellite_image_base64 data) with
              | None => inl (DecodeError "cannot identify image file")
              | Some satellite_image =>
                  inr (mkPageData (historical_data data) (forecast_data data)
                                  satellite_image (latest_fecal data))
              end
          end
      end
  end.

(** Lines 52-73: a request exception is shown and the page stops. *)
Definition fetch_data (reply : Reply) : PageStart :=
  match fetch_block reply with
  | inr data => Fetched data
  | inl e =>
      if is_RequestException e
      then Stopped (st_error ("Error fetching data from backend: " ++ fetch_str e))
      else Uncaught e
  end.

(** Lines 116-118: the last seven days of the history, the forecast and
    the threshold. *)
Definition trend_chart (historical_data : list Observation)
           (forecast_data : list ForecastPoint) (threshold : Q) : Chart :=
  mkChart (last7 (map date historical_data))
          (last7 (map fecal_coliform historical_data))
          (map fdate forecast_data)
          (map forecast_fecal forecast_data)
          threshold.

(** Lines 129-134. *)
Definition alerts_section (forecast_data : list ForecastPoint) (threshold : Q)
  : list Widget :=
  let alerts := Frontend.check_alerts format_float forecast_data threshold in
  match alerts with
  | [] => [st_success "No alerts. Water quality is within safe limits."]
  | _ => map st_warning alerts
  end.

End Page.

End Dashboard.

(* ================================================================= *)
(** ** More vocabulary and concrete inputs *)

Module Cases.
Import Py Wire Spec.

(** The order of the bands. *)
Definition band_rank (b : SeverityBand) : nat :=
  match b with LOW => 0 | MEDIUM => 1 | HIGH => 2 end.

(** A decoder for [Scenario.first_pixel_code]; like [imread] on a PNG it
    gives four channels, the fourth (alpha) full. *)
Definition decode_first_pixel (code : string) : option Backend.Image :=
  let rgba (b : SeverityBand) : Backend.Image :=
    repeat (repeat (band_rgb b ++ [1]) 50) 50 in
  if String.eqb code "-G" then Some (rgba LOW)
  else if String.eqb code "RG" then Some (rgba MEDIUM)
  else if String.eqb code "R-" then Some (rgba HIGH)
  else None.

(** Log-normal draws of 0, 50, 100, ... 1450 and a rainfall of [i] on day
    [i]: draws below, inside and above the range of the clamp. *)
Definition spread_draws : Backend.Draws :=
  Backend.mkDraws (fun _ => 7) (fun _ => 8)
                  (fun i => inject_Z (Z.of_nat i))
                  (fun i => 50 * inject_Z (Z.of_nat i)).

Definition status_text (status : Z) : string :=
  if (status <? 500)%Z then "Client Error" else "Server Error".

(** The history of one reading. *)
Definition single_history : list Observation := [mkObservation 0 7 8 0 150].

(** The forecast of [Scenario.rising_history], with its dates a week late
    and in reverse order. *)
Definition shuffled_forecast : list ForecastPoint :=
  [ mkForecastPoint 39 (Fin 880); mkForecastPoint 38 (Fin 870);
    mkForecastPoint 37 (Fin 860) ].

End Cases.

(* ================================================================= *)
(** ** Comparisons and clipping *)

Section Comparisons.
Import Py.

Lemma Qltb_lt (x y : Q) : Qltb x y = true <-> x < y.
Proof. unfold Qltb, Qlt. apply Z.ltb_lt. Qed.

Lemma Qltb_ge (x y : Q) : Qltb x y = false <-> y <= x.
Proof. unfold Qltb, Qle. apply Z.ltb_ge. Qed.

Lemma Qltb_spec (x y : Q) : reflect (x < y) (Qltb x y).
Proof.
  destruct (Qltb x y) eqn:E; constructor.
  - now apply Qltb_lt.
  - apply Qltb_ge in E. now apply Qle_not_lt.
Qed.

Lemma fgt_true (a : npfloat) (bound : Q) :
  fgt a (Fin bound) = true <-> exists q, a = Fin q /\ bound < q.
Proof.
  destruct a as [q|]; simpl.
  - unfold fgt; simpl. rewrite Qltb_lt. split.
    + intros H. now exists q.
    + intros (q' & E & H). now inversion E; subst.
  - split; [discriminate | intros (q & E & _); discriminate].
Qed.

Lemma clip_lower (a_min a_max x : Q) : a_min <= a_max -> a_min <= clip a_min a_max x.
Proof.
  intros H. unfold clip.
  destruct (Qltb_spec x a_min) as [L|L];
    [destruct (Qltb_spec a_max a_min) | destruct (Qltb_spec a_max x)]; lra.
Qed.

Lemma clip_upper (a_min a_max x : Q) : clip a_min a_max x <= a_max.
Proof.
  unfold clip.
  destruct (Qltb_spec x a_min) as [L|L];
    [destruct (Qltb_spec a_max a_min) | destruct (Qltb_spec a_max x)]; lra.
Qed.

Lemma clip_inside (a_min a_max x : Q) :
  a_min <= x -> x <= a_max -> clip a_min a_max x = x.
Proof.
  intros H1 H2. unfold clip.
  destruct (Qltb_spec x a_min) as [L|L]; [lra|].
  destruct (Qltb_spec a_max x); [lra | reflexivity].
Qed.

Lemma clip_below (a_min a_max x : Q) :
  a_min <= a_max -> x < a_min -> clip a_min a_max x = a_min.
Proof.
  intros H L. unfold clip.
  destruct (Qltb_spec x a_min) as [L'|L']; [|lra].
  destruct (Qltb_spec a_max a_min); [lra | reflexivity].
Qed.

Lemma clip_above (a_min a_max x : Q) :
  a_min <= a_max -> a_max < x -> clip a_min a_max x = a_max.
Proof.
  intros H L. unfold clip.
  destruct (Qltb_spec x a_min) as [L'|L']; [lra|].
  destruct (Qltb_spec a_max x); [reflexivity | lra].
Qed.

End Comparisons.

(* ================================================================= *)
(** ** The severity classifier *)

Section Classifier.
Import Py Wire Spec.

Lemma green_block :
  Backend.set_channel 1 1 (Backend.np_zeros 50 50 3) = band_artifact LOW.
Proof. vm_compute. reflexivity. Qed.

Lemma yellow_block :
  Backend.set_channel 1 1 (Backend.set_channel 0 1 (Backend.np_zeros 50 50 3))
  = band_artifact MEDIUM.
Proof. vm_compute. reflexivity. Qed.

Lemma red_block :
  Backend.set_channel 0 1 (Backend.np_zeros 50 50 3) = band_artifact HIGH.
Proof. vm_compute. reflexivity. Qed.

Lemma band_artifact_inj (b b' : SeverityBand) :
  band_artifact b = band_artifact b' -> b = b'.
Proof.
  intros H.
  apply (f_equal (fun img : Backend.Image => nth 0 (nth 0 img []) [])) in H.
  destruct b, b'; try reflexivity; vm_compute in H; discriminate.
Qed.

Lemma band_color_name_inj (b b' : SeverityBand) :
  band_color_name b = band_color_name b' -> b = b'.
Proof. destruct b, b'; simpl; intros H; try reflexivity; discriminate. Qed.

Lemma in_band_total (value : Q) : exists b, in_band value b.
Proof.
  destruct (Qlt_le_dec value 400) as [H|H].
  - exists LOW. now constructor.
  - destruct (Qlt_le_dec value 800) as [H'|H'].
    + exists MEDIUM. now constructor.
    + exists HIGH. now constructor.
Qed.

Lemma in_band_functional (value : Q) (b b' : SeverityBand) :
  in_band value b -> in_band value b' -> b = b'.
Proof. intros H H'. destruct H; destruct H'; try reflexivity; lra. Qed.

(** The branch the code takes is the band of the value. *)
Lemma severity_image_in_band (value : Q) (b : SeverityBand) :
  in_band value b -> Backend.severity_image value = band_artifact b.
Proof.
  intros H. unfold Backend.severity_image.
  destruct (Qltb_spec value 400) as [L|L].
  - destruct H; try lra. apply green_block.
  - destruct (Qltb_spec value 800) as [L'|L'].
    + destruct H; try lra. apply yellow_block.
    + destruct H; try lra. apply red_block.
Qed.

Lemma river_color_in_band (format_1f : npfloat -> string) (value : Q) (b : SeverityBand) :
  in_band value b ->
  Frontend.polyline_color (Frontend.make_river_map format_1f (Fin value))
  = band_color_name b.
Proof.
  intros H. unfold Frontend.make_river_map; simpl.
  destruct (Qltb_spec value 400) as [L|L].
  - destruct H; try lra. reflexivity.
  - destruct (Qltb_spec value 800) as [L'|L'].
    + destruct H; try lra. reflexivity.
    + destruct H; try lra. reflexivity.
Qed.

(** C2.  Every value falls in exactly one of the three bands, the lower
    boundary of a band belonging to it: below 400 the block is all green
    (LOW), from 400 up to but excluding 800 it is all yellow (red and green
    channels full, blue empty; MEDIUM), from 800 on it is all red (HIGH).
    In particular 400 gives the MEDIUM block and 800 the HIGH block, as do
    399.999 (LOW) and 799.999 (MEDIUM) on their side of the boundary. *)
Theorem severity_classifier_bands (value : Q) :
  (exists! b, in_band value b) /\
  (forall b, Backend.severity_image value = band_artifact b <-> in_band value b) /\
  (value < 400 -> Backend.severity_image value = band_artifact LOW) /\
  (400 <= value -> value < 800 ->
   Backend.severity_image value = band_artifact MEDIUM) /\
  (800 <= value -> Backend.severity_image value = band_artifact HIGH) /\
  band_rgb LOW = [0; 1; 0] /\
  band_rgb MEDIUM = [1; 1; 0] /\
  band_rgb HIGH = [1; 0; 0] /\
  Backend.severity_image (399999 # 1000) = band_artifact LOW /\
  Backend.severity_image 400 = band_artifact MEDIUM /\
  Backend.severity_image (799999 # 1000) = band_artifact MEDIUM /\
  Backend.severity_image 800 = band_artifact HIGH.
Proof.
  assert (Hiff : forall b,
             Backend.severity_image value = band_artifact b <-> in_band value b).
  { intros b. split.
    - intros E. destruct (in_band_total value) as [b' Hb'].
      rewrite (severity_image_in_band Hb') in E.
      apply band_artifact_inj in E. now subst.
    - apply severity_image_in_band. }
  split.
  { destruct (in_band_total value) as [b Hb]. exists b. split; [assumption|].
    intros b' Hb'. eapply in_band_functional; eassumption. }
  split; [exact Hiff|].
  split; [intros H; apply severity_image_in_band; now constructor|].
  split; [intros H1 H2; apply severity_image_in_band; now constructor|].
  split; [intros H; apply severity_image_in_band; now constructor|].
  do 3 (split; [reflexivity|]).
  split; [apply severity_image_in_band; constructor; reflexivity|].
  split; [apply severity_image_in_band; constructor; [discriminate | reflexivity]|].
  split; [apply severity_image_in_band; constructor; [discriminate | reflexivity]|].
  apply severity_image_in_band. constructor. discriminate.
Qed.

(** C9.  The colour block of the backend and the colour of the polyline
    and of the marker on the frontend's map stand for the same band, for
    every value: green below 400, yellow from 400 up to but excluding 800,
    red from 800 on. *)
Theorem backend_frontend_same_band (format_1f : npfloat -> string) (value : Q) :
  let river_map := Frontend.make_river_map format_1f (Fin value) in
  Frontend.marker_icon_color river_map = Frontend.polyline_color river_map /\
  (forall b,
      Backend.severity_image value = band_artifact b <->
      Frontend.polyline_color river_map = band_color_name b) /\
  (exists b,
      in_band value b /\
      Backend.severity_image value = band_artifact b /\
      Frontend.polyline_color river_map = band_color_name b).
Proof.
  intros river_map. subst river_map.
  destruct (in_band_total value) as [b0 Hb0].
  pose proof (severity_image_in_band Hb0) as Himg.
  pose proof (river_color_in_band format_1f Hb0) as Hcol.
  split; [reflexivity|]. split.
  - intros b. rewrite Himg, Hcol. split; intros E.
    + apply band_artifact_inj in E. now subst.
    + apply band_color_name_inj in E. now subst.
  - exists b0. auto.
Qed.

(** The map of a reading of 850, and of a reading that is not a number. *)
Example river_map_high :
  Frontend.make_river_map Scenario.plain_1f (Fin 850)
  = Frontend.mkRiverMap "red" "Pollution: Red" "Fecal Coliform: ? CFU/100mL" "red".
Proof. reflexivity. Qed.

Example river_map_nan :
  Frontend.polyline_color (Frontend.make_river_map Scenario.plain_1f NaN)
  = "red"%string.
Proof. reflexivity. Qed.

End Classifier.

(* ================================================================= *)
(** ** Series: last element, differences, mean *)

Section Series.
Import Py Wire Spec.

Lemma last_opt_map {A B} (f : A -> B) (xs : list A) :
  last_opt (map f xs) = option_map f (last_opt xs).
Proof.
  induction xs as [|x [|y t] IH]; try reflexivity.
  exact IH.
Qed.

Lemma last_opt_cons {A} (x : A) (xs : list A) :
  exists y, last_opt (x :: xs) = Some y.
Proof.
  revert x. induction xs as [|z t IH]; intros x.
  - now exists x.
  - destruct (IH z) as [y Hy]. exists y. exact Hy.
Qed.

(** The code's [diff] of a series of [n >= 1] finite values: one [NaN],
    then the [n - 1] day-over-day differences. *)
Lemma map2_fsub_removelast (x : Q) (t : list Q) :
  map2 fsub (map Fin t) (removelast (map Fin (x :: t)))
  = map Fin (first_differences (x :: t)).
Proof.
  revert x. induction t as [|y t IH]; intros x; [reflexivity|].
  change (map Fin (x :: y :: t)) with (Fin x :: map Fin (y :: t)).
  change (removelast (Fin x :: map Fin (y :: t)))
    with (Fin x :: removelast (map Fin (y :: t))).
  change (map Fin (y :: t)) with (Fin y :: map Fin t) at 1.
  cbn [map2 fsub]. rewrite IH. reflexivity.
Qed.

Lemma diff_finite (x : Q) (t : list Q) :
  diff (map Fin (x :: t)) = NaN :: map Fin (first_differences (x :: t)).
Proof.
  unfold diff, shift1.
  change (map Fin (x :: t)) with (Fin x :: map Fin t) at 1 2.
  cbn [map2 fsub]. f_equal. apply map2_fsub_removelast.
Qed.

Lemma dropna_finite (xs : list Q) : dropna (map Fin xs) = map Fin xs.
Proof.
  unfold dropna. induction xs as [|x t IH]; [reflexivity|].
  simpl. now rewrite IH.
Qed.

Lemma first_differences_length (xs : list Q) :
  List.length (first_differences xs) = pred (List.length xs).
Proof.
  induction xs as [|x [|y t] IH]; try reflexivity.
  change (first_differences (x :: y :: t))
    with ((y - x) :: first_differences (y :: t)).
  simpl List.length in *. now rewrite IH.
Qed.

Lemma fold_left_fadd_Fin (xs : list Q) (a : Q) :
  fold_left fadd (map Fin xs) (Fin a) = Fin (fold_left Qplus xs a).
Proof.
  revert a. induction xs as [|x t IH]; intros a; [reflexivity|].
  simpl. apply IH.
Qed.

Lemma fold_left_Qplus_Qsum (xs : list Q) (a : Q) :
  fold_left Qplus xs a == a + Qsum xs.
Proof.
  revert a. induction xs as [|x t IH]; intros a; simpl.
  - ring.
  - rewrite IH. ring.
Qed.

(** On two or more finite values, the code's trend is the arithmetic mean
    of the day-over-day differences. *)
Lemma trend_is_mean (xs : list Q) :
  (2 <= List.length xs)%nat ->
  exists trend,
    np_mean (dropna (diff (map Fin xs))) = Fin trend /\
    trend == arithmetic_mean (first_differences xs).
Proof.
  intros Hlen.
  destruct xs as [|x [|y t]]; simpl in Hlen; try lia.
  rewrite diff_finite.
  change (dropna (NaN :: map Fin (first_differences (x :: y :: t))))
    with (dropna (map Fin (first_differences (x :: y :: t)))).
  rewrite dropna_finite.
  remember (first_differences (x :: y :: t)) as ds eqn:Eds.
  assert (Hne : ds <> []).
  { subst ds. discriminate. }
  destruct ds as [|d0 ds]; [congruence|].
  unfold np_mean, fsum.
  change (map Fin (d0 :: ds)) with (Fin d0 :: map Fin ds) at 1.
  cbv iota.
  rewrite fold_left_fadd_Fin. rewrite length_map.
  eexists. split; [reflexivity|].
  unfold arithmetic_mean. rewrite fold_left_Qplus_Qsum.
  rewrite Qplus_0_l. reflexivity.
Qed.

End Series.

(* ================================================================= *)
(** ** The trend forecaster *)

Section Forecaster.
Import Py Wire Spec.

Lemma iloc_last_some {A} (xs : list A) (x : A) (log : Log) :
  last_opt xs = Some x -> iloc_last xs log = (Returned x, log).
Proof. intros H. unfold iloc_last. now rewrite H. Qed.

Lemma index_last_some {A} (xs : list A) (x : A) (log : Log) :
  last_opt xs = Some x -> index_last xs log = (Returned x, log).
Proof. intros H. unfold index_last. now rewrite H. Qed.

(** The forecast once the last point and the trend are known. *)
Lemma trend_forecast_eval (dates : list Z) (fecal : list Q)
      (last_date : Z) (last trend : Q) (log : Log) :
  last_opt dates = Some last_date ->
  last_opt fecal = Some last ->
  np_mean (dropna (diff (map Fin fecal))) = Fin trend ->
  Backend.trend_forecast dates fecal log
  = (Returned (linear_forecast last_date last trend), log).
Proof.
  intros Hd Hf Ht. unfold Backend.trend_forecast, bind.
  rewrite (iloc_last_some _ log Hf), (index_last_some _ log Hd), Ht.
  reflexivity.
Qed.

(** The forecast from two or more observations: the last observation, the
    mean of the differences, and the three points. *)
Lemma trend_forecast_two_or_more (history : list Observation) (log : Log) :
  (2 <= List.length history)%nat ->
  exists last_obs trend,
    last_opt history = Some last_obs /\
    List.length (first_differences (map fecal_coliform history))
      = (List.length history - 1)%nat /\
    trend == arithmetic_mean (first_differences (map fecal_coliform history)) /\
    Backend.trend_forecast (map date history) (map fecal_coliform history) log
    = (Returned
         [ mkForecastPoint (date last_obs + 1)%Z
                           (Fin (fecal_coliform last_obs + trend * 1));
           mkForecastPoint (date last_obs + 2)%Z
                           (Fin (fecal_coliform last_obs + trend * 2));
           mkForecastPoint (date last_obs + 3)%Z
                           (Fin (fecal_coliform last_obs + trend * 3)) ],
       log).
Proof.
  intros Hlen.
  destruct history as [|o t]; [simpl in Hlen; lia|].
  destruct (last_opt_cons o t) as [last_obs Hlast].
  destruct (@trend_is_mean (map fecal_coliform (o :: t))) as (trend & Hmean & Htrend).
  { now rewrite length_map. }
  exists last_obs, trend.
  split; [exact Hlast|].
  split; [rewrite first_differences_length, length_map; lia|].
  split; [exact Htrend|].
  apply trend_forecast_eval.
  - now rewrite last_opt_map, Hlast.
  - now rewrite last_opt_map, Hlast.
  - exact Hmean.
Qed.

(** C1.  From a history of two or more observations the forecaster returns
    exactly three points, dated on the three days that follow the last
    historical day, the point of day [i] carrying [last + trend * i] for
    [i = 1, 2, 3], where [last] is the last observation's fecal coliform
    and [trend] the arithmetic mean of the [n - 1] day-over-day differences
    of the [n] observations.  Each point is computed from the last
    historical value and its own horizon, not from the point before it,
    and the values are not clamped. *)
Theorem trend_forecast_linear (history : list Observation) (log : Log) :
  (2 <= List.length history)%nat ->
  exists last_obs trend,
    last_opt history = Some last_obs /\
    List.length (first_differences (map fecal_coliform history))
      = (List.length history - 1)%nat /\
    trend == arithmetic_mean (first_differences (map fecal_coliform history)) /\
    Backend.trend_forecast (map date history) (map fecal_coliform history) log
    = (Returned
         [ mkForecastPoint (date last_obs + 1)%Z
                           (Fin (fecal_coliform last_obs + trend * 1));
           mkForecastPoint (date last_obs + 2)%Z
                           (Fin (fecal_coliform last_obs + trend * 2));
           mkForecastPoint (date last_obs + 3)%Z
                           (Fin (fecal_coliform last_obs + trend * 3)) ],
       log).
Proof. apply trend_forecast_two_or_more. Qed.

Lemma trend_forecast_linear_witness :
  (2 <= List.length Scenario.rising_history)%nat /\
  exists last_obs trend,
    last_opt Scenario.rising_history = Some last_obs /\
    fecal_coliform last_obs == 850 /\
    trend == 10 /\
    Backend.trend_forecast (map date Scenario.rising_history)
                           (map fecal_coliform Scenario.rising_history) []
    = (Returned
         [ mkForecastPoint 30%Z (Fin (fecal_coliform last_obs + trend * 1));
           mkForecastPoint 31%Z (Fin (fecal_coliform last_obs + trend * 2));
           mkForecastPoint 32%Z (Fin (fecal_coliform last_obs + trend * 3)) ],
       []).
Proof.
  assert (Hlen : (2 <= List.length Scenario.rising_history)%nat)
    by (vm_compute; lia).
  split; [exact Hlen|].
  destruct (@trend_forecast_linear Scenario.rising_history [] Hlen)
    as (last_obs & trend & Hlast & _ & Htrend & Hrun).
  exists last_obs, trend.
  vm_compute in Hlast. inversion Hlast; subst last_obs.
  split; [reflexivity|].
  split; [reflexivity|].
  split; [rewrite Htrend; vm_compute; reflexivity|].
  exact Hrun.
Defined.

(** From a history that ends at 850 and rises by 10 a day: 860, 870, 880. *)
Example forecast_from_rising_history :
  exists points,
    Backend.trend_forecast (map date Scenario.rising_history)
                           (map fecal_coliform Scenario.rising_history) []
    = (Returned points, []) /\
    map fdate points = [30; 31; 32]%Z /\
    Forall2 feq (map forecast_fecal points) [Fin 860; Fin 870; Fin 880].
Proof.
  eexists. split; [vm_compute; reflexivity|].
  split; [reflexivity|].
  repeat constructor.
Qed.

(** With no observation the forecaster stops on the read of the last
    value. *)
Lemma trend_forecast_empty (dates : list Z) (log : Log) :
  Backend.trend_forecast dates [] log
  = (Raised (mkExn IndexError "single positional indexer is out-of-bounds"), log).
Proof. reflexivity. Qed.

(** With one observation there is no difference to average: the trend is
    [NaN] and so is every forecast value; nothing is raised. *)
Lemma trend_forecast_single (d : Z) (x : Q) (log : Log) :
  Backend.trend_forecast [d] [x] log
  = (Returned [ mkForecastPoint (d + 1)%Z NaN;
                mkForecastPoint (d + 2)%Z NaN;
                mkForecastPoint (d + 3)%Z NaN ], log).
Proof. reflexivity. Qed.

End Forecaster.

(* ================================================================= *)
(** ** The series generator and the payload *)

Section Generator.
Import Py Wire Spec.

Variable png_base64 : Backend.Image -> string.

Lemma map2_map {I A B C} (f : A -> B -> C) (g : I -> A) (h : I -> B) (l : list I) :
  map2 f (map g l) (map h l) = map (fun i => f (g i) (h i)) l.
Proof. induction l as [|i l IH]; [reflexivity|]. simpl. now rewrite IH. Qed.

Lemma DataFrame_map {I} (a : I -> Z) (b c r f : I -> Q) (l : list I) :
  Backend.DataFrame (map a l) (map b l) (map c l) (map r l) (map f l)
  = map (fun i => mkObservation (a i) (b i) (c i) (r i) (f i)) l.
Proof. induction l as [|i l IH]; [reflexivity|]. simpl. now rewrite IH. Qed.

(** The rows of the history, position by position. *)
Lemma history_rows (today : Z) (d : Backend.Draws) :
  Backend.DataFrame
    (Backend.date_range today 30)
    (Backend.sample (Backend.draw_pH d) 30)
    (Backend.sample (Backend.draw_DO d) 30)
    (Backend.sample (Backend.draw_rainfall d) 30)
    (Backend.fecal_column (Backend.sample (Backend.draw_lognormal d) 30)
                          (Backend.sample (Backend.draw_rainfall d) 30))
  = map (observation_at today d) (range 30).
Proof.
  unfold Backend.date_range, Backend.sample, Backend.fecal_column.
  rewrite !map_map, map2_map.
  apply (DataFrame_map
           (fun i => (today - (Z.of_nat 30 - 1) + Z.of_nat i)%Z)
           (Backend.draw_pH d) (Backend.draw_DO d) (Backend.draw_rainfall d)
           (fun i => clip 100 1000 (Backend.draw_lognormal d i)
                     + Backend.draw_rainfall d i * (1 # 2))).
Qed.

Lemma history_dates (today : Z) (d : Backend.Draws) :
  Backend.date_range today 30
  = map date (map (observation_at today d) (range 30)).
Proof. rewrite map_map. reflexivity. Qed.

Lemma history_last (today : Z) (d : Backend.Draws) :
  last_opt (map (observation_at today d) (range 30))
  = Some (observation_at today d 29).
Proof. rewrite last_opt_map. reflexivity. Qed.

Lemma history_nth (today : Z) (d : Backend.Draws) (i : nat) (o : Observation) :
  nth_error (map (observation_at today d) (range 30)) i = Some o ->
  (i < 30)%nat /\ o = observation_at today d i.
Proof.
  unfold range. rewrite nth_error_map, nth_error_seq.
  destruct (Nat.ltb_spec i 30) as [L|L]; simpl; intros H; inversion H.
  split; [exact L | reflexivity].
Qed.

(** [generate_data] always returns: the 30 rows, the linear forecast from
    the last row, the encoded block of the last reading and that reading.
    Nothing is logged. *)
Lemma generate_data_returns (today : Z) (d : Backend.Draws) (log : Log) :
  exists trend,
    trend == arithmetic_mean
               (first_differences
                  (map fecal_coliform (map (observation_at today d) (range 30)))) /\
    Backend.generate_data png_base64 today d log
    = (Returned
         (mkDataPayload
            (map (observation_at today d) (range 30))
            (linear_forecast today
                             (fecal_coliform (observation_at today d 29)) trend)
            (png_base64
               (Backend.severity_image (fecal_coliform (observation_at today d 29))))
            (fecal_coliform (observation_at today d 29))),
       log).
Proof.
  destruct (@trend_forecast_two_or_more (map (observation_at today d) (range 30)) log)
    as (last_obs & trend & Hlast & _ & Htrend & Hrun).
  { rewrite length_map. unfold range. rewrite length_seq. lia. }
  rewrite history_last in Hlast. inversion Hlast; subst last_obs.
  exists trend. split; [exact Htrend|].
  unfold Backend.generate_data, try_except, bind.
  cbv zeta. rewrite history_rows, (history_dates today d), Hrun.
  rewrite (iloc_last_some _ log
             (x := fecal_coliform (observation_at today d 29))).
  - unfold ret, linear_forecast. repeat f_equal;
      unfold observation_at; simpl date; lia.
  - rewrite last_opt_map, history_last. reflexivity.
Qed.

End Generator.

(* ================================================================= *)
(** ** Properties of the generated history *)

Section History.
Import Py Wire Spec.

(** C7.  Every generated history has exactly 30 observations, one per
    day: each date is the day after the date before it, and the last date
    is the current day. *)
Theorem history_thirty_consecutive_days
        (png_base64 : Backend.Image -> string)
        (today : Z) (d : Backend.Draws) (log : Log) :
  exists data,
    Backend.generate_data png_base64 today d log = (Returned data, log) /\
    List.length (historical_data data) = 30%nat /\
    (forall i o o',
        nth_error (historical_data data) i = Some o ->
        nth_error (historical_data data) (S i) = Some o' ->
        date o' = (date o + 1)%Z) /\
    (exists o, last_opt (historical_data data) = Some o /\ date o = today) /\
    map date (historical_data data)
    = map (fun i => (today - 29 + Z.of_nat i)%Z) (seq 0 30).
Proof.
  destruct (generate_data_returns png_base64 today d log) as (trend & _ & Hrun).
  eexists. split; [exact Hrun|]. cbn [historical_data].
  split; [rewrite length_map; unfold range; apply length_seq|].
  split.
  { intros i o o' Hi HSi.
    apply history_nth in Hi. apply history_nth in HSi.
    destruct Hi as [_ ->], HSi as [_ ->].
    unfold observation_at; simpl date. lia. }
  split.
  { exists (observation_at today d 29). split; [apply history_last|].
    unfold observation_at; simpl date. lia. }
  rewrite map_map. reflexivity.
Qed.

(** C3.  Every observation's fecal coliform is the log-normal draw of its
    day clamped to [100, 1000], plus half the rainfall of the same day,
    the rainfall being added after the clamp: a draw below 100 counts as
    100, a draw from 100 to 1000 counts as itself and a draw above 1000
    counts as 1000.  Rainfall being non-negative, every value is at least
    100; the upper bound 1000 does not survive the addition: with enough
    rain a value exceeds it. *)
Theorem fecal_clamped_then_rain
        (png_base64 : Backend.Image -> string)
        (today : Z) (d : Backend.Draws) (log : Log)
        (Hrain : forall i, 0 <= Backend.draw_rainfall d i) :
  (exists data,
      Backend.generate_data png_base64 today d log = (Returned data, log) /\
      forall i o,
        nth_error (historical_data data) i = Some o ->
        rainfall o = Backend.draw_rainfall d i /\
        fecal_coliform o
        = clip 100 1000 (Backend.draw_lognormal d i) + rainfall o * (1 # 2) /\
        100 <= clip 100 1000 (Backend.draw_lognormal d i) <= 1000 /\
        100 <= fecal_coliform o /\
        (Backend.draw_lognormal d i < 100 ->
         fecal_coliform o = 100 + rainfall o * (1 # 2)) /\
        (100 <= Backend.draw_lognormal d i ->
         Backend.draw_lognormal d i <= 1000 ->
         fecal_coliform o = Backend.draw_lognormal d i + rainfall o * (1 # 2)) /\
        (1000 < Backend.draw_lognormal d i ->
         fecal_coliform o = 1000 + rainfall o * (1 # 2))) /\
  (exists d' data' o',
      (forall i, 0 <= Backend.draw_rainfall d' i) /\
      Backend.generate_data png_base64 today d' log = (Returned data', log) /\
      In o' (historical_data data') /\
      1000 < fecal_coliform o').
Proof.
  assert (H100 : 100 <= 1000) by discriminate.
  split.
  - destruct (generate_data_returns png_base64 today d log) as (trend & _ & Hrun).
    eexists. split; [exact Hrun|]. cbn [historical_data].
    intros i o Hi. apply history_nth in Hi. destruct Hi as [_ ->].
    unfold observation_at; cbn [rainfall fecal_coliform].
    pose proof (@clip_lower 100 1000 (Backend.draw_lognormal d i) H100) as Hlo.
    pose proof (clip_upper 100 1000 (Backend.draw_lognormal d i)) as Hhi.
    specialize (Hrain i).
    split; [reflexivity|]. split; [reflexivity|].
    split; [split; assumption|]. split; [lra|].
    split; [|split].
    + intros L. now rewrite (clip_below H100 L).
    + intros L1 L2. now rewrite (clip_inside L1 L2).
    + intros L. now rewrite (clip_above H100 L).
  - destruct (generate_data_returns png_base64 today Scenario.storm_draws log)
      as (trend & _ & Hrun).
    exists Scenario.storm_draws. eexists. exists (observation_at today Scenario.storm_draws 0).
    split; [intros i; discriminate|].
    split; [exact Hrun|]. cbn [historical_data].
    split; [left; reflexivity|].
    reflexivity.
Qed.

End History.

Lemma fecal_clamped_then_rain_witness :
  (forall i, 0 <= Backend.draw_rainfall Cases.spread_draws i) /\
  exists data,
    Backend.generate_data Scenario.first_pixel_code 0 Cases.spread_draws []
    = (Py.Returned data, []) /\
    (forall i o,
        nth_error (Wire.historical_data data) i = Some o ->
        Wire.rainfall o = Backend.draw_rainfall Cases.spread_draws i /\
        Wire.fecal_coliform o
        = Py.clip 100 1000 (Backend.draw_lognormal Cases.spread_draws i)
          + Wire.rainfall o * (1 # 2) /\
        100 <= Py.clip 100 1000 (Backend.draw_lognormal Cases.spread_draws i)
            <= 1000 /\
        100 <= Wire.fecal_coliform o /\
        (Backend.draw_lognormal Cases.spread_draws i < 100 ->
         Wire.fecal_coliform o = 100 + Wire.rainfall o * (1 # 2)) /\
        (100 <= Backend.draw_lognormal Cases.spread_draws i ->
         Backend.draw_lognormal Cases.spread_draws i <= 1000 ->
         Wire.fecal_coliform o
         = Backend.draw_lognormal Cases.spread_draws i
           + Wire.rainfall o * (1 # 2)) /\
        (1000 < Backend.draw_lognormal Cases.spread_draws i ->
         Wire.fecal_coliform o = 1000 + Wire.rainfall o * (1 # 2))) /\
    (exists below inside above,
        nth_error (Wire.historical_data data) 1 = Some below /\
        nth_error (Wire.historical_data data) 10 = Some inside /\
        nth_error (Wire.historical_data data) 29 = Some above /\
        Wire.fecal_coliform below == 100 + (1 # 2) /\
        Wire.fecal_coliform inside == 500 + 5 /\
        Wire.fecal_coliform above == 1000 + (29 # 2)).
Proof.
  assert (H : forall i, 0 <= Backend.draw_rainfall Cases.spread_draws i).
  { intros i. simpl. unfold Qle; simpl. lia. }
  split; [exact H|].
  destruct (proj1 (@fecal_clamped_then_rain Scenario.first_pixel_code 0
                     Cases.spread_draws [] H))
    as (data & Hrun & Hrows).
  exists data. split; [exact Hrun|]. split; [exact Hrows|].
  clear Hrows. vm_compute in Hrun. injection Hrun as Hdata. subst data.
  do 3 eexists.
  split; [reflexivity|]. split; [reflexivity|]. split; [reflexivity|].
  split; [|split]; vm_compute; reflexivity.
Defined.

(* ================================================================= *)
(** ** The data service *)

Section DataService.
Import Py Wire Spec.

Variable png_base64 : Backend.Image -> string.
Variable json_render_error : DataPayload -> option Exn.

Lemma endpoint_on_failure (gen : M DataPayload) (log log' : Log) (e : Exn) :
  gen log = (Raised e, log') ->
  Backend.get_water_quality_data_with json_render_error gen log
  = (Returned (error_response e), log' ++ [error_line e]).
Proof.
  intros H. unfold Backend.get_water_quality_data_with, try_except, bind.
  rewrite H. reflexivity.
Qed.

Lemma endpoint_on_success (gen : M DataPayload) (log log' : Log) (data : DataPayload) :
  gen log = (Returned data, log') ->
  Backend.get_water_quality_data_with json_render_error gen log
  = match json_render_error data with
    | None => (Returned (Backend.mkResponse (Backend.DataContent data) 200), log')
    | Some e => (Returned (error_response e), log' ++ [error_line e])
    end.
Proof.
  intros H. unfold Backend.get_water_quality_data_with, try_except, bind.
  rewrite H. unfold Backend.JSONResponse.
  destruct (json_render_error data); reflexivity.
Qed.

(** The endpoint on the real generator. *)
Lemma get_water_quality_data_result (today : Z) (d : Backend.Draws) (log : Log) :
  exists data,
    Backend.generate_data png_base64 today d log = (Returned data, log) /\
    List.length (historical_data data) = 30%nat /\
    List.length (forecast_data data) = 3%nat /\
    (exists o, last_opt (historical_data data) = Some o /\
               latest_fecal data = fecal_coliform o) /\
    satellite_image_base64 data
    = png_base64 (Backend.severity_image (latest_fecal data)) /\
    Backend.get_water_quality_data png_base64 json_render_error today d log
    = match json_render_error data with
      | None => (Returned (Backend.mkResponse (Backend.DataContent data) 200), log)
      | Some e => (Returned (error_response e), log ++ [error_line e])
      end.
Proof.
  destruct (generate_data_returns png_base64 today d log) as (trend & _ & Hrun).
  eexists. split; [exact Hrun|].
  cbn [historical_data forecast_data latest_fecal satellite_image_base64].
  split; [rewrite length_map; unfold range; apply length_seq|].
  split; [reflexivity|].
  split; [exists (observation_at today d 29); split;
          [apply history_last | reflexivity]|].
  split; [reflexivity|].
  unfold Backend.get_water_quality_data.
  apply (endpoint_on_success _ _ Hrun).
Qed.

(** The endpoint, whatever the generation step and whatever rendering
    does: a failure of either gives the envelope with the message of the
    failure, status 500 and a line in the log; the endpoint itself never
    raises; a response that carries a payload carries the one that was
    generated and rendered. *)
Lemma endpoint_envelope_cases :
  (forall (gen : M DataPayload) (log : Log),
      match gen log with
      | (Raised e, log') =>
          Backend.get_water_quality_data_with json_render_error gen log
          = (Returned (Backend.mkResponse
                         (Backend.ErrorContent ("Internal Server Error: " ++ exn_str e))
                         500),
             log' ++ [("Error in /data endpoint: " ++ exn_str e)%string])
      | (Returned data, log') =>
          match json_render_error data with
          | Some e =>
              Backend.get_water_quality_data_with json_render_error gen log
              = (Returned (Backend.mkResponse
                             (Backend.ErrorContent
                                ("Internal Server Error: " ++ exn_str e))
                             500),
                 log' ++ [("Error in /data endpoint: " ++ exn_str e)%string])
          | None =>
              Backend.get_water_quality_data_with json_render_error gen log
              = (Returned (Backend.mkResponse (Backend.DataContent data) 200), log')
          end
      end) /\
  (forall (gen : M DataPayload) (log : Log),
      exists response log',
        Backend.get_water_quality_data_with json_render_error gen log
        = (Returned response, log') /\
        ((exists data, Backend.content response = Backend.DataContent data /\
                       Backend.status_code response = 200%Z /\
                       gen log = (Returned data, log')) \/
         (exists e, Backend.content response
                    = Backend.ErrorContent ("Internal Server Error: " ++ exn_str e) /\
                    Backend.status_code response = 500%Z /\
                    In ("Error in /data endpoint: " ++ exn_str e)%string log'))) /\
  (forall (today : Z) (d : Backend.Draws) (log : Log),
      exists data,
        Backend.generate_data png_base64 today d log = (Returned data, log) /\
        List.length (historical_data data) = 30%nat /\
        List.length (forecast_data data) = 3%nat /\
        (json_render_error data = None ->
         Backend.get_water_quality_data png_base64 json_render_error today d log
         = (Returned (Backend.mkResponse (Backend.DataContent data) 200), log))).
Proof.
  split; [|split].
  - intros gen log. destruct (gen log) as [[data|e] log'] eqn:E.
    + rewrite (endpoint_on_success _ _ E).
      destruct (json_render_error data); reflexivity.
    + apply (endpoint_on_failure _ _ E).
  - intros gen log. destruct (gen log) as [[data|e] log'] eqn:E.
    + rewrite (endpoint_on_success _ _ E).
      destruct (json_render_error data) as [e|].
      * do 2 eexists. split; [reflexivity|]. right. exists e.
        repeat split. apply in_or_app. right. now left.
      * do 2 eexists. split; [reflexivity|]. left. exists data.
        repeat split.
    + rewrite (endpoint_on_failure _ _ E).
      do 2 eexists. split; [reflexivity|]. right. exists e.
      repeat split. apply in_or_app. right. now left.
  - intros today d log.
    destruct (get_water_quality_data_result today d log)
      as (data & Hrun & H30 & H3 & _ & _ & Hresp).
    exists data. repeat split; try assumption.
    intros Hok. rewrite Hresp, Hok. reflexivity.
Qed.


End DataService.

(** C5.  The service meets the half of the claim that is about failures
    (the envelope with the message, status 500, a log line, nothing
    raised), and misses the other half: on every invocation the
    generation, the forecast and the classification succeed and give the
    full payload of 30 observations and 3 forecast points, and the service
    still answers the error envelope with status 500, because building the
    response of that payload raises on the timestamps of its rows.  No
    invocation returns the success payload. *)
Theorem data_service_never_returns_the_payload
        (png_base64 : Backend.Image -> string)
        (today : Z) (d : Backend.Draws) (log : Py.Log) :
  exists data,
    Backend.generate_data png_base64 today d log = (Py.Returned data, log) /\
    List.length (Wire.historical_data data) = 30%nat /\
    List.length (Wire.forecast_data data) = 3%nat /\
    Json.dumps_error data
    = Some (Py.mkExn Py.TypeError
                     "Object of type Timestamp is not JSON serializable") /\
    Backend.get_water_quality_data png_base64 Json.dumps_error today d log
    = (Py.Returned
         (Backend.mkResponse
            (Backend.ErrorContent
               "Internal Server Error: Object of type Timestamp is not JSON serializable")
            500),
       log ++ [ "Error in /data endpoint: Object of type Timestamp is not JSON serializable"%string ]).
Proof.
  destruct (get_water_quality_data_result png_base64 Json.dumps_error today d log)
    as (data & Hrun & H30 & H3 & _ & _ & Hresp).
  assert (J : Json.dumps_error data
              = Some (Py.mkExn Py.TypeError
                               "Object of type Timestamp is not JSON serializable")).
  { unfold Json.dumps_error.
    destruct (Wire.historical_data data); [discriminate H30 | reflexivity]. }
  exists data. rewrite J in Hresp. repeat split; assumption.
Qed.

(** The request of day 0 with the draws of [Scenario.steady_draws]. *)
Example service_render_failure :
  Backend.get_water_quality_data
    Scenario.first_pixel_code Json.dumps_error 0 Scenario.steady_draws []
  = (Py.Returned
       (Backend.mkResponse
          (Backend.ErrorContent
             "Internal Server Error: Object of type Timestamp is not JSON serializable")
          500),
     [ "Error in /data endpoint: Object of type Timestamp is not JSON serializable" ]%string).
Proof. vm_compute. reflexivity. Qed.

(** A fault inside the generation step (a forecast from an empty history)
    reaches the caller as the error envelope, with two lines logged. *)
Example service_failure_path :
  Backend.get_water_quality_data_with Json.dumps_error
    (Py.try_except Scenario.generate_from_nothing
       (fun e => Py.bind (Py.logger_error ("Error in generate_data: " ++ Py.exn_str e))
                         (fun _ => Py.raise e)))
    []
  = (Py.Returned
       (Backend.mkResponse
          (Backend.ErrorContent
             "Internal Server Error: single positional indexer is out-of-bounds")
          500),
     [ "Error in generate_data: single positional indexer is out-of-bounds";
       "Error in /data endpoint: single positional indexer is out-of-bounds" ]%string).
Proof. reflexivity. Qed.

(* ================================================================= *)
(** ** The alert evaluator *)

Section Alerts.
Import Py Wire Spec.

Variable format_float : Q -> string.

Lemma any_exceeds (forecast : list ForecastPoint) (bound : Q) :
  any (map (fun x => fgt x (Fin bound)) (map forecast_fecal forecast)) = true
  <-> exceeds forecast bound.
Proof.
  unfold any, exceeds. rewrite existsb_exists. split.
  - intros (b & Hin & Hb). subst b.
    apply in_map_iff in Hin. destruct Hin as (x & Hx & Hin).
    apply in_map_iff in Hin. destruct Hin as (p & Hp & Hin).
    subst x. apply fgt_true in Hx. destruct Hx as (q & Hq & Hlt).
    now exists p, q.
  - intros (p & q & Hin & Hq & Hlt).
    exists true. split; [|reflexivity].
    apply in_map_iff. exists (forecast_fecal p). split.
    + apply fgt_true. now exists q.
    + now apply in_map.
Qed.

Lemma exceeds_dec (forecast : list ForecastPoint) (bound : Q) :
  {exceeds forecast bound} + {~ exceeds forecast bound}.
Proof.
  destruct (any (map (fun x => fgt x (Fin bound)) (map forecast_fecal forecast)))
    eqn:E.
  - left. now apply any_exceeds.
  - right. intros H. apply any_exceeds in H. congruence.
Qed.

Lemma exceeds_weaken (forecast : list ForecastPoint) (low high : Q) :
  low <= high -> exceeds forecast high -> exceeds forecast low.
Proof.
  intros Hle (p & q & Hin & Hq & Hlt). exists p, q.
  repeat split; try assumption. lra.
Qed.

Lemma warning_is_not_critical (threshold : Q) :
  Frontend.warning_alert format_float threshold <> Frontend.critical_alert.
Proof. unfold Frontend.warning_alert, Frontend.critical_alert. discriminate. Qed.

(** The four outcomes of [check_alerts]. *)
Lemma check_alerts_cases (forecast : list ForecastPoint) (threshold : Q) :
  Frontend.check_alerts format_float forecast threshold
  = (if exceeds_dec forecast threshold
     then [Frontend.warning_alert format_float threshold] else [])
    ++ (if exceeds_dec forecast 800 then [Frontend.critical_alert] else []).
Proof.
  unfold Frontend.check_alerts.
  destruct (exceeds_dec forecast threshold) as [W|W];
    destruct (exceeds_dec forecast 800) as [C|C];
    pose proof (any_exceeds forecast threshold) as HW;
    pose proof (any_exceeds forecast 800) as HC;
    destruct (any (map (fun x => fgt x (Fin threshold)) (map forecast_fecal forecast)));
    destruct (any (map (fun x => fgt x (Fin 800)) (map forecast_fecal forecast)));
    try reflexivity;
    try (exfalso; apply W; now apply HW);
    try (exfalso; apply C; now apply HC);
    try (apply HW in W; discriminate);
    try (apply HC in C; discriminate).
Qed.

(** C6.  The alerts are, in this order, the warning when and only when
    some forecast value is strictly above the user's threshold, and the
    critical alert when and only when some forecast value is strictly
    above 800, whatever the threshold: none, one or two alerts, neither
    check depending on the other, nothing merged.  A value equal to the
    bound raises nothing.  With threshold 400, the forecast 390, 410, 790
    gives the warning alone and 900, 100, 100 gives the warning and then
    the critical alert. *)
Theorem check_alerts_warning_then_critical
        (forecast : list ForecastPoint) (threshold : Q) :
  let alerts := Frontend.check_alerts format_float forecast threshold in
  let warning := Frontend.warning_alert format_float threshold in
  let critical := Frontend.critical_alert in
  (In warning alerts <-> exceeds forecast threshold) /\
  (In critical alerts <-> exceeds forecast 800) /\
  (exceeds forecast threshold -> exceeds forecast 800 ->
   alerts = [warning; critical]) /\
  (exceeds forecast threshold -> ~ exceeds forecast 800 ->
   alerts = [warning]) /\
  (~ exceeds forecast threshold -> exceeds forecast 800 ->
   alerts = [critical]) /\
  (~ exceeds forecast threshold -> ~ exceeds forecast 800 ->
   alerts = []) /\
  (List.length alerts <= 2)%nat /\
  Frontend.check_alerts format_float (Scenario.forecast_of [390; 410; 790]) 400
  = [Frontend.warning_alert format_float 400] /\
  Frontend.check_alerts format_float (Scenario.forecast_of [900; 100; 100]) 400
  = [Frontend.warning_alert format_float 400; Frontend.critical_alert] /\
  Frontend.check_alerts format_float (Scenario.forecast_of [400; 400; 400]) 400
  = [] /\
  Frontend.check_alerts format_float (Scenario.forecast_of [800; 800; 800]) 800
  = [].
Proof.
  intros alerts warning critical. subst alerts warning critical.
  pose proof (@warning_is_not_critical threshold) as Hne.
  rewrite check_alerts_cases.
  destruct (exceeds_dec forecast threshold) as [W|W];
    destruct (exceeds_dec forecast 800) as [C|C]; simpl;
    (split; [|split; [|split; [|split; [|split; [|split; [|split]]]]]]);
    try (repeat split; reflexivity);
    try tauto; try lia;
    try (split; [tauto | intros [E|[E|[]]]; congruence || tauto]);
    try (split; [intros [E|[E|[]]]; congruence || tauto | tauto]);
    try (split; [intros [E|[]]; congruence || tauto | tauto]).
Qed.

(** C10.  With a threshold of at most 800, the critical alert never comes
    without the warning; so with the default threshold 400 the list of
    alerts is never the critical alert alone. *)
Theorem critical_alert_comes_with_warning
        (forecast : list ForecastPoint) (threshold : Q) :
  threshold <= 800 ->
  let alerts := Frontend.check_alerts format_float forecast threshold in
  (In Frontend.critical_alert alerts ->
   In (Frontend.warning_alert format_float threshold) alerts) /\
  alerts <> [Frontend.critical_alert] /\
  Frontend.check_alerts format_float forecast 400 <> [Frontend.critical_alert].
Proof.
  intros Hle alerts. subst alerts.
  assert (H : forall t, t <= 800 ->
            (In Frontend.critical_alert (Frontend.check_alerts format_float forecast t) ->
             In (Frontend.warning_alert format_float t)
                (Frontend.check_alerts format_float forecast t)) /\
            Frontend.check_alerts format_float forecast t <> [Frontend.critical_alert]).
  { intros t Ht. pose proof (@warning_is_not_critical t) as Hne.
    rewrite check_alerts_cases.
    destruct (exceeds_dec forecast t) as [W|W];
      destruct (exceeds_dec forecast 800) as [C|C]; simpl.
    - split; [tauto | congruence].
    - split; [tauto | congruence].
    - exfalso. apply W. eapply exceeds_weaken; eassumption.
    - split; [tauto | discriminate]. }
  split; [apply H; assumption|].
  split; [apply H; assumption|].
  apply H. discriminate.
Qed.

End Alerts.

Lemma critical_alert_comes_with_warning_witness :
  400 <= 800 /\
  (In Frontend.critical_alert
      (Frontend.check_alerts Scenario.plain_float
         (Scenario.forecast_of [900; 100; 100]) 400) ->
   In (Frontend.warning_alert Scenario.plain_float 400)
      (Frontend.check_alerts Scenario.plain_float
         (Scenario.forecast_of [900; 100; 100]) 400)) /\
  In Frontend.critical_alert
     (Frontend.check_alerts Scenario.plain_float
        (Scenario.forecast_of [900; 100; 100]) 400).
Proof.
  assert (H : 400 <= 800) by discriminate.
  split; [exact H|].
  split.
  - exact (proj1 (@critical_alert_comes_with_warning Scenario.plain_float
                    (Scenario.forecast_of [900; 100; 100]) 400 H)).
  - vm_compute. right. left. reflexivity.
Defined.

(* ================================================================= *)
(** ** The forecaster on fewer than two observations *)

Section ShortHistory.
Import Py Wire Spec.

(** C4, as stated, does not hold: a history of fewer than two observations
    does not always make the forecaster fail.  One observation gives a
    forecast, of three [NaN] values. *)
Lemma short_history_not_always_an_error :
  ~ (forall (history : list Observation) (log : Log),
        (List.length history < 2)%nat ->
        exists e log',
          Backend.trend_forecast (map date history) (map fecal_coliform history) log
          = (Raised e, log')).
Proof.
  intros H.
  destruct (H [mkObservation 0 7 8 0 150] []) as (e & log' & E).
  - simpl. lia.
  - discriminate E.
Qed.

(** C4, amended.  On fewer than two observations the forecaster has no
    error of its own.  With no observation it raises the index error of
    the read of the last value.  With exactly one observation it raises
    nothing: the mean of no difference is [NaN], and it returns three
    points, dated on the three following days, whose values are [NaN]. *)
Theorem trend_forecast_short_history (history : list Observation) (log : Log) :
  (List.length history < 2)%nat ->
  (history = [] /\
   exists e,
     exn_class e = IndexError /\
     Backend.trend_forecast (map date history) (map fecal_coliform history) log
     = (Raised e, log)) \/
  (exists o,
      history = [o] /\
      Backend.trend_forecast (map date history) (map fecal_coliform history) log
      = (Returned [ mkForecastPoint (date o + 1)%Z NaN;
                    mkForecastPoint (date o + 2)%Z NaN;
                    mkForecastPoint (date o + 3)%Z NaN ], log)).
Proof.
  intros Hlen. destruct history as [|o [|o' t]].
  - left. split; [reflexivity|]. eexists. split; [|apply trend_forecast_empty].
    reflexivity.
  - right. exists o. split; [reflexivity|]. apply trend_forecast_single.
  - simpl in Hlen. lia.
Qed.

End ShortHistory.

Lemma trend_forecast_short_history_witness :
  (List.length [Wire.mkObservation 0 7 8 0 150] < 2)%nat /\
  ((([Wire.mkObservation 0 7 8 0 150] : list Wire.Observation) = [] /\
    exists e,
      Py.exn_class e = Py.IndexError /\
      Backend.trend_forecast (map Wire.date [Wire.mkObservation 0 7 8 0 150])
        (map Wire.fecal_coliform [Wire.mkObservation 0 7 8 0 150]) []
      = (Py.Raised e, [])) \/
   (exists o,
       [Wire.mkObservation 0 7 8 0 150] = [o] /\
       Backend.trend_forecast (map Wire.date [Wire.mkObservation 0 7 8 0 150])
         (map Wire.fecal_coliform [Wire.mkObservation 0 7 8 0 150]) []
       = (Py.Returned [ Wire.mkForecastPoint (Wire.date o + 1)%Z Py.NaN;
                        Wire.mkForecastPoint (Wire.date o + 2)%Z Py.NaN;
                        Wire.mkForecastPoint (Wire.date o + 3)%Z Py.NaN ], []))).
Proof.
  assert (H : (List.length [Wire.mkObservation 0 7 8 0 150] < 2)%nat)
    by (simpl; lia).
  split; [exact H|].
  exact (@trend_forecast_short_history [Wire.mkObservation 0 7 8 0 150] [] H).
Defined.

(* ================================================================= *)
(** ** The payload, row by row *)

Section Payload.
Import Py Wire Spec.

Variable png_base64 : Backend.Image -> string.

(** The dates of a payload run without gap from the first day of the
    history to the last day of the forecast: the three forecast points are
    dated on the three days after the current day, so that history and
    forecast together cover 33 consecutive days; and no forecast value of a
    payload is [NaN]. *)
Theorem payload_covers_33_consecutive_days
        (today : Z) (d : Backend.Draws) (log : Log) :
  exists data,
    Backend.generate_data png_base64 today d log = (Returned data, log) /\
    map fdate (forecast_data data) = [today + 1; today + 2; today + 3]%Z /\
    map date (historical_data data) ++ map fdate (forecast_data data)
    = map (fun i => (today - 29 + Z.of_nat i)%Z) (seq 0 33) /\
    (forall p, In p (forecast_data data) -> isnan (forecast_fecal p) = false).
Proof.
  destruct (generate_data_returns png_base64 today d log) as (trend & _ & Hrun).
  eexists. split; [exact Hrun|]. cbn [historical_data forecast_data].
  split; [reflexivity|]. split.
  - change 33%nat with (30 + 3)%nat. rewrite seq_app, map_app, map_map.
    f_equal. unfold linear_forecast. cbn [map fdate seq Nat.add].
    replace (today - 29 + Z.of_nat 30)%Z with (today + 1)%Z by lia.
    replace (today - 29 + Z.of_nat 31)%Z with (today + 2)%Z by lia.
    replace (today - 29 + Z.of_nat 32)%Z with (today + 3)%Z by lia.
    reflexivity.
  - intros p [E|[E|[E|[]]]]; subst p; reflexivity.
Qed.

(** Row [i] of the history holds sample [i] of each draw, unchanged for
    pH, dissolved oxygen and rainfall, on day [today - 29 + i]; there are
    rows for the positions 0 to 29 and for no other. *)
Theorem history_rows_hold_the_draws
        (today : Z) (d : Backend.Draws) (log : Log) :
  exists data,
    Backend.generate_data png_base64 today d log = (Returned data, log) /\
    forall i,
      ((i < 30)%nat ->
       exists o,
         nth_error (historical_data data) i = Some o /\
         date o = (today - 29 + Z.of_nat i)%Z /\
         pH o = Backend.draw_pH d i /\
         DO o = Backend.draw_DO d i /\
         rainfall o = Backend.draw_rainfall d i) /\
      ((30 <= i)%nat -> nth_error (historical_data data) i = None).
Proof.
  destruct (generate_data_returns png_base64 today d log) as (trend & _ & Hrun).
  eexists. split; [exact Hrun|]. cbn [historical_data].
  intros i. unfold range. rewrite nth_error_map, nth_error_seq. split; intros Hi.
  - destruct (Nat.ltb_spec i 30) as [L|L]; [|lia].
    exists (observation_at today d i). repeat split.
  - destruct (Nat.ltb_spec i 30) as [L|L]; [lia | reflexivity].
Qed.

End Payload.

(* ================================================================= *)
(** ** The colours of a reading *)

Section Colours.
Import Py Wire Spec.

Lemma severity_image_band_inv (value : Q) (b : SeverityBand) :
  Backend.severity_image value = band_artifact b -> in_band value b.
Proof.
  intros E. destruct (in_band_total value) as [b' Hb'].
  rewrite (severity_image_in_band Hb') in E.
  apply band_artifact_inj in E. now subst.
Qed.

Lemma river_color_band_inv (format_1f : npfloat -> string) (value : Q)
      (b : SeverityBand) :
  Frontend.polyline_color (Frontend.make_river_map format_1f (Fin value))
  = band_color_name b ->
  in_band value b.
Proof.
  intros E. destruct (in_band_total value) as [b' Hb'].
  rewrite (river_color_in_band format_1f Hb') in E.
  apply band_color_name_inj in E. now subst.
Qed.

Lemma in_band_monotone (v w : Q) (b b' : SeverityBand) :
  v <= w -> in_band v b -> in_band w b' ->
  (Cases.band_rank b <= Cases.band_rank b')%nat.
Proof.
  intros Hle Hb Hb'. destruct Hb; destruct Hb'; simpl; try lia; lra.
Qed.

(** The block of the backend is 50 rows of 50 pixels, all of one colour,
    whose blue channel is never set, whose red channel is set exactly
    from 400 on and whose green channel is set exactly below 800. *)
Theorem severity_image_channels (value : Q) :
  exists r g,
    List.length (Backend.severity_image value) = 50%nat /\
    (forall row, In row (Backend.severity_image value) ->
                 List.length row = 50%nat /\
                 forall pixel, In pixel row -> pixel = [r; g; 0]) /\
    (r = 1 /\ 400 <= value \/ r = 0 /\ value < 400) /\
    (g = 1 /\ value < 800 \/ g = 0 /\ 800 <= value).
Proof.
  destruct (in_band_total value) as [b Hb].
  rewrite (severity_image_in_band Hb). unfold band_artifact.
  exists (nth 0 (band_rgb b) 0), (nth 1 (band_rgb b) 0).
  split; [apply repeat_length|]. split.
  - intros row Hrow. apply repeat_spec in Hrow. subst row.
    split; [apply repeat_length|].
    intros pixel Hpx. apply repeat_spec in Hpx. subst pixel.
    destruct b; reflexivity.
  - destruct Hb; simpl; split; (left; split; [reflexivity | lra])
                               || (right; split; [reflexivity | lra]).
Qed.

(** A higher reading never gets a milder colour, on the block of the
    backend as on the map of the frontend. *)
Theorem colours_rise_with_the_reading
        (format_1f : npfloat -> string) (v w : Q) (b b' : SeverityBand) :
  v <= w ->
  (Backend.severity_image v = band_artifact b ->
   Backend.severity_image w = band_artifact b' ->
   (Cases.band_rank b <= Cases.band_rank b')%nat) /\
  (Frontend.polyline_color (Frontend.make_river_map format_1f (Fin v))
   = band_color_name b ->
   Frontend.polyline_color (Frontend.make_river_map format_1f (Fin w))
   = band_color_name b' ->
   (Cases.band_rank b <= Cases.band_rank b')%nat).
Proof.
  intros Hle. split; intros E E'.
  - apply severity_image_band_inv in E, E'.
    eapply in_band_monotone; eassumption.
  - apply river_color_band_inv in E, E'.
    eapply in_band_monotone; eassumption.
Qed.

(** The map of any float: polyline and marker have the same colour, the
    popup of the polyline names it with a capital, and the colour is green
    only for a number below 400, yellow only for a number from 400 up to
    but excluding 800, and red for every number from 800 on and for a
    float that is not a number. *)
Theorem river_map_of_any_float
        (format_1f : npfloat -> string) (fecal_value : npfloat) :
  let river_map := Frontend.make_river_map format_1f fecal_value in
  Frontend.marker_icon_color river_map = Frontend.polyline_color river_map /\
  Frontend.marker_popup river_map
  = ("Fecal Coliform: " ++ format_1f fecal_value ++ " CFU/100mL")%string /\
  ((Frontend.polyline_color river_map = "green"%string /\
    Frontend.polyline_popup river_map = "Pollution: Green"%string /\
    exists q, fecal_value = Fin q /\ q < 400) \/
   (Frontend.polyline_color river_map = "yellow"%string /\
    Frontend.polyline_popup river_map = "Pollution: Yellow"%string /\
    exists q, fecal_value = Fin q /\ 400 <= q /\ q < 800) \/
   (Frontend.polyline_color river_map = "red"%string /\
    Frontend.polyline_popup river_map = "Pollution: Red"%string /\
    (fecal_value = NaN \/ exists q, fecal_value = Fin q /\ 800 <= q))).
Proof.
  intros river_map. subst river_map.
  split; [reflexivity|]. split; [reflexivity|].
  destruct fecal_value as [q|].
  - unfold Frontend.make_river_map; simpl.
    destruct (Qltb_spec q 400) as [L|L].
    + left. repeat split. exists q. split; [reflexivity | assumption].
    + destruct (Qltb_spec q 800) as [L'|L'].
      * right; left. repeat split. exists q. repeat split; lra.
      * right; right. repeat split. right. exists q. split; [reflexivity | lra].
  - right; right. repeat split. now left.
Qed.

End Colours.

Lemma colours_rise_with_the_reading_witness :
  399 <= 400 /\
  (Backend.severity_image 399 = Spec.band_artifact Spec.LOW ->
   Backend.severity_image 400 = Spec.band_artifact Spec.MEDIUM ->
   (Cases.band_rank Spec.LOW <= Cases.band_rank Spec.MEDIUM)%nat) /\
  Backend.severity_image 399 = Spec.band_artifact Spec.LOW /\
  Backend.severity_image 400 = Spec.band_artifact Spec.MEDIUM.
Proof.
  assert (H : 399 <= 400) by discriminate.
  split; [exact H|]. split.
  - exact (proj1 (@colours_rise_with_the_reading
                    Scenario.plain_1f 399 400 Spec.LOW Spec.MEDIUM H)).
  - split; vm_compute; reflexivity.
Defined.

(* ================================================================= *)
(** ** More on the alerts *)

Section MoreAlerts.
Import Py Wire Spec.

Variable format_float : Q -> string.

Lemma in_warning_iff (forecast : list ForecastPoint) (threshold : Q) :
  In (Frontend.warning_alert format_float threshold)
     (Frontend.check_alerts format_float forecast threshold)
  <-> exceeds forecast threshold.
Proof.
  pose proof (@warning_is_not_critical format_float threshold) as Hne.
  rewrite check_alerts_cases.
  destruct (exceeds_dec forecast threshold) as [W|W];
    destruct (exceeds_dec forecast 800) as [C|C]; simpl; split;
    try tauto; intros H; try tauto;
    destruct H as [E|H]; try tauto; congruence.
Qed.

Lemma in_critical_iff (forecast : list ForecastPoint) (threshold : Q) :
  In Frontend.critical_alert
     (Frontend.check_alerts format_float forecast threshold)
  <-> exceeds forecast 800.
Proof.
  pose proof (@warning_is_not_critical format_float threshold) as Hne.
  rewrite check_alerts_cases.
  destruct (exceeds_dec forecast threshold) as [W|W];
    destruct (exceeds_dec forecast 800) as [C|C]; simpl; split;
    try tauto; intros H; try tauto;
    destruct H as [E|H]; try tauto; congruence.
Qed.

Lemma exceeds_linear (last_date : Z) (last trend bound : Q) :
  exceeds (linear_forecast last_date last trend) bound
  <-> bound < last + trend * 1 \/ bound < last + trend * 3.
Proof.
  unfold exceeds, linear_forecast. split.
  - intros (p & q & Hin & Hq & Hlt).
    destruct Hin as [E|[E|[E|[]]]]; subst p; simpl in Hq;
      inversion Hq; subst q.
    + now left.
    + destruct (Qlt_le_dec 0 trend); [right | left]; lra.
    + now right.
  - intros [H|H].
    + eexists. eexists. split; [left; reflexivity|].
      split; [reflexivity | exact H].
    + eexists. eexists. split; [right; right; left; reflexivity|].
      split; [reflexivity | exact H].
Qed.

(** With a threshold of 800 or more the warning never comes without the
    critical alert: the list of alerts is never the warning alone. *)
Theorem warning_comes_with_critical_from_800
        (forecast : list ForecastPoint) (threshold : Q) :
  800 <= threshold ->
  (In (Frontend.warning_alert format_float threshold)
      (Frontend.check_alerts format_float forecast threshold) ->
   In Frontend.critical_alert
      (Frontend.check_alerts format_float forecast threshold)) /\
  Frontend.check_alerts format_float forecast threshold
  <> [Frontend.warning_alert format_float threshold].
Proof.
  intros Hle.
  pose proof (@warning_is_not_critical format_float threshold) as Hne.
  rewrite check_alerts_cases.
  destruct (exceeds_dec forecast threshold) as [W|W];
    destruct (exceeds_dec forecast 800) as [C|C]; simpl.
  - split; [tauto | discriminate].
  - exfalso. apply C. eapply exceeds_weaken; eassumption.
  - split; [tauto | congruence].
  - split; [tauto | discriminate].
Qed.

(** Lowering the threshold never removes the warning, and the critical
    alert does not depend on the threshold. *)
Theorem alerts_and_the_threshold
        (forecast : list ForecastPoint) (low high : Q) :
  low <= high ->
  (In (Frontend.warning_alert format_float high)
      (Frontend.check_alerts format_float forecast high) ->
   In (Frontend.warning_alert format_float low)
      (Frontend.check_alerts format_float forecast low)) /\
  (In Frontend.critical_alert (Frontend.check_alerts format_float forecast low)
   <-> In Frontend.critical_alert
          (Frontend.check_alerts format_float forecast high)).
Proof.
  intros Hle. split.
  - rewrite !in_warning_iff. now apply exceeds_weaken.
  - rewrite !in_critical_iff. reflexivity.
Qed.

(** A forecast without a number raises no alert, whatever the threshold:
    an empty forecast, or one whose values are all [NaN], shows the page
    its message that the water is within safe limits. *)
Theorem forecast_without_numbers_raises_no_alert
        (forecast : list ForecastPoint) (threshold : Q) :
  (forall p, In p forecast -> forecast_fecal p = NaN) ->
  Frontend.check_alerts format_float forecast threshold = [] /\
  Dashboard.alerts_section format_float forecast threshold
  = [Dashboard.st_success "No alerts. Water quality is within safe limits."].
Proof.
  intros Hnan.
  assert (Hno : forall bound, ~ exceeds forecast bound).
  { intros bound (p & q & Hin & Hq & _). rewrite (Hnan p Hin) in Hq.
    discriminate. }
  assert (E : Frontend.check_alerts format_float forecast threshold = []).
  { rewrite check_alerts_cases.
    destruct (exceeds_dec forecast threshold) as [W|W];
      [exfalso; exact (Hno _ W)|].
    destruct (exceeds_dec forecast 800) as [C|C];
      [exfalso; exact (Hno _ C)|].
    reflexivity. }
  split; [exact E|].
  unfold Dashboard.alerts_section. rewrite E. reflexivity.
Qed.

(** The alerts depend on the forecast values only: two forecasts with the
    same values, in any order, at any dates, with or without repetition,
    raise the same alerts. *)
Theorem alerts_depend_on_the_values_only
        (forecast forecast' : list ForecastPoint) (threshold : Q) :
  (forall v, In v (map forecast_fecal forecast)
             <-> In v (map forecast_fecal forecast')) ->
  Frontend.check_alerts format_float forecast threshold
  = Frontend.check_alerts format_float forecast' threshold.
Proof.
  intros Hsame.
  assert (Hex : forall bound, exceeds forecast bound <-> exceeds forecast' bound).
  { assert (Hhalf : forall f f' : list ForecastPoint,
               (forall v, In v (map forecast_fecal f)
                          -> In v (map forecast_fecal f')) ->
               forall bound, exceeds f bound -> exceeds f' bound).
    { intros f f' Hsub bound (p & q & Hin & Hq & Hlt).
      assert (Hv : In (Fin q) (map forecast_fecal f')).
      { apply Hsub. rewrite <- Hq. now apply in_map. }
      apply in_map_iff in Hv. destruct Hv as (p' & Hp' & Hin').
      now exists p', q. }
    intros bound. split; apply Hhalf; intros v; apply Hsame. }
  rewrite !check_alerts_cases.
  destruct (exceeds_dec forecast threshold) as [W|W];
    destruct (exceeds_dec forecast' threshold) as [W'|W'];
    try (exfalso; apply Hex in W; tauto);
    try (exfalso; apply Hex in W'; tauto);
    destruct (exceeds_dec forecast 800) as [C|C];
    destruct (exceeds_dec forecast' 800) as [C'|C'];
    try reflexivity;
    try (exfalso; apply Hex in C; tauto);
    try (exfalso; apply Hex in C'; tauto).
Qed.

(** On a linear forecast the first and the third point decide: an alert
    is raised exactly when one of these two is above its bound; the second
    point never makes a difference. *)
Theorem linear_forecast_alerts_at_the_ends
        (last_date : Z) (last trend threshold : Q) :
  let forecast := linear_forecast last_date last trend in
  (In (Frontend.warning_alert format_float threshold)
      (Frontend.check_alerts format_float forecast threshold)
   <-> threshold < last + trend * 1 \/ threshold < last + trend * 3) /\
  (In Frontend.critical_alert
      (Frontend.check_alerts format_float forecast threshold)
   <-> 800 < last + trend * 1 \/ 800 < last + trend * 3).
Proof.
  intros forecast. subst forecast.
  rewrite in_warning_iff, in_critical_iff, !exceeds_linear. tauto.
Qed.

(** What the page shows under "Alerts": never nothing; the message that
    the water is within safe limits exactly when no forecast value is
    above the threshold or above 800; otherwise one warning box per
    alert, in the order of the alerts, the critical alert in a warning
    box like the other. *)
Theorem alerts_section_shows
        (forecast : list ForecastPoint) (threshold : Q) :
  let shown := Dashboard.alerts_section format_float forecast threshold in
  let safe :=
    Dashboard.st_success "No alerts. Water quality is within safe limits." in
  shown <> [] /\
  (shown = [safe]
   <-> ~ exceeds forecast threshold /\ ~ exceeds forecast 800) /\
  (exceeds forecast threshold \/ exceeds forecast 800 ->
   shown = map Dashboard.st_warning
               (Frontend.check_alerts format_float forecast threshold)) /\
  (exceeds forecast 800 ->
   In (Dashboard.st_warning Frontend.critical_alert) shown).
Proof.
  intros shown safe. subst shown safe.
  unfold Dashboard.alerts_section. rewrite check_alerts_cases.
  destruct (exceeds_dec forecast threshold) as [W|W];
    destruct (exceeds_dec forecast 800) as [C|C]; simpl;
    (split; [discriminate|]);
    (split; [split; [intros E; discriminate E || tauto | tauto]|]);
    (split; [tauto|]); try tauto; intros _; auto.
Qed.

End MoreAlerts.

Lemma warning_comes_with_critical_from_800_witness :
  800 <= 850 /\
  Frontend.check_alerts Scenario.plain_float
    (Scenario.forecast_of [840; 845; 849]) 850 = [Frontend.critical_alert] /\
  Frontend.check_alerts Scenario.plain_float
    (Scenario.forecast_of [840; 845; 849]) 850
  <> [Frontend.warning_alert Scenario.plain_float 850].
Proof.
  assert (H : 800 <= 850) by discriminate.
  split; [exact H|]. split; [reflexivity|].
  exact (proj2 (@warning_comes_with_critical_from_800 Scenario.plain_float
                  (Scenario.forecast_of [840; 845; 849]) 850 H)).
Defined.

Lemma alerts_and_the_threshold_witness :
  400 <= 500 /\
  In (Frontend.warning_alert Scenario.plain_float 500)
     (Frontend.check_alerts Scenario.plain_float
        (Scenario.forecast_of [390; 410; 790]) 500) /\
  In (Frontend.warning_alert Scenario.plain_float 400)
     (Frontend.check_alerts Scenario.plain_float
        (Scenario.forecast_of [390; 410; 790]) 400).
Proof.
  assert (H : 400 <= 500) by discriminate.
  assert (W : In (Frontend.warning_alert Scenario.plain_float 500)
                 (Frontend.check_alerts Scenario.plain_float
                    (Scenario.forecast_of [390; 410; 790]) 500))
    by (vm_compute; left; reflexivity).
  split; [exact H|]. split; [exact W|].
  exact (proj1 (@alerts_and_the_threshold Scenario.plain_float
                  (Scenario.forecast_of [390; 410; 790]) 400 500 H) W).
Defined.

Lemma forecast_without_numbers_raises_no_alert_witness :
  exists forecast,
    Backend.trend_forecast (map Wire.date Cases.single_history)
                           (map Wire.fecal_coliform Cases.single_history) []
    = (Py.Returned forecast, []) /\
    (forall p, In p forecast -> Wire.forecast_fecal p = Py.NaN) /\
    Frontend.check_alerts Scenario.plain_float forecast 0 = [] /\
    Dashboard.alerts_section Scenario.plain_float forecast 0
    = [Dashboard.st_success "No alerts. Water quality is within safe limits."].
Proof.
  eexists. split; [vm_compute; reflexivity|].
  assert (H : forall p,
             In p [ Wire.mkForecastPoint 1 Py.NaN; Wire.mkForecastPoint 2 Py.NaN;
                    Wire.mkForecastPoint 3 Py.NaN ] ->
             Wire.forecast_fecal p = Py.NaN).
  { intros p [E|[E|[E|[]]]]; subst p; reflexivity. }
  split; [exact H|].
  exact (@forecast_without_numbers_raises_no_alert Scenario.plain_float _ 0 H).
Defined.

Lemma alerts_depend_on_the_values_only_witness :
  (forall v, In v (map Wire.forecast_fecal (Scenario.forecast_of [860; 870; 880]))
             <-> In v (map Wire.forecast_fecal Cases.shuffled_forecast)) /\
  Frontend.check_alerts Scenario.plain_float
    (Scenario.forecast_of [860; 870; 880]) 400
  = Frontend.check_alerts Scenario.plain_float Cases.shuffled_forecast 400.
Proof.
  assert (H : forall v,
             In v (map Wire.forecast_fecal (Scenario.forecast_of [860; 870; 880]))
             <-> In v (map Wire.forecast_fecal Cases.shuffled_forecast)).
  { intros v. simpl. tauto. }
  split; [exact H|].
  exact (@alerts_depend_on_the_values_only Scenario.plain_float
           (Scenario.forecast_of [860; 870; 880]) Cases.shuffled_forecast 400 H).
Defined.

(* ================================================================= *)
(** ** The page and the backend *)

Section PageAndBackend.
Import Py Wire Spec.

Variable png_base64 : Backend.Image -> string.
Variable json_render_error : DataPayload -> option Exn.
Variable http_error_message : Z -> string.
Variable imread_base64 : string -> option Backend.Image.

(** The two shapes of a response of the endpoint. *)
Lemma endpoint_response_shape (gen : M DataPayload) (log log' : Log)
      (response : Backend.Response) :
  Backend.get_water_quality_data_with json_render_error gen log
  = (Returned response, log') ->
  (exists data,
      response = Backend.mkResponse (Backend.DataContent data) 200 /\
      gen log = (Returned data, log') /\
      json_render_error data = None) \/
  (exists e, response = error_response e).
Proof.
  intros Hrun. destruct (gen log) as [[data|e] l] eqn:E.
  - rewrite (endpoint_on_success json_render_error _ _ E) in Hrun.
    destruct (json_render_error data) as [e|] eqn:J; inversion Hrun; subst.
    + right. now exists e.
    + left. now exists data.
  - rewrite (endpoint_on_failure json_render_error _ _ E) in Hrun.
    inversion Hrun; subst. right. now exists e.
Qed.

Lemma fetch_error_response (e : Exn) :
  Dashboard.fetch_data http_error_message imread_base64
    (Dashboard.Answer (error_response e))
  = Dashboard.Stopped
      (Dashboard.st_error
         ("Error fetching data from backend: " ++ http_error_message 500)).
Proof. reflexivity. Qed.

(** The page never looks for the data in an error envelope: on every
    response of the endpoint that carries the envelope, the status check
    stops the page with an error box before any key is read, so that no
    [KeyError] leaves the fetch block; and a response that carries data has
    status 200 and is the payload that was generated. *)
Theorem error_envelope_is_never_read_as_data
        (gen : M DataPayload) (log log' : Log) (response : Backend.Response) :
  Backend.get_water_quality_data_with json_render_error gen log
  = (Returned response, log') ->
  (forall key,
      Dashboard.fetch_data http_error_message imread_base64
        (Dashboard.Answer response)
      <> Dashboard.Uncaught (Dashboard.KeyError key)) /\
  (forall error,
      Backend.content response = Backend.ErrorContent error ->
      Dashboard.fetch_data http_error_message imread_base64
        (Dashboard.Answer response)
      = Dashboard.Stopped
          (Dashboard.st_error
             ("Error fetching data from backend: " ++ http_error_message 500))) /\
  (forall data,
      Backend.content response = Backend.DataContent data ->
      Backend.status_code response = 200%Z /\
      gen log = (Returned data, log')).
Proof.
  intros Hrun.
  destruct (endpoint_response_shape _ _ Hrun)
    as [(data & -> & Hgen & _) | (e & ->)].
  - split; [|split].
    + intros key. unfold Dashboard.fetch_data, Dashboard.fetch_block. simpl.
      destruct (imread_base64 (satellite_image_base64 data)); discriminate.
    + intros error H. discriminate H.
    + intros data' H. inversion H; subst. split; [reflexivity | exact Hgen].
  - split; [|split].
    + intros key. rewrite fetch_error_response. discriminate.
    + intros error _. apply fetch_error_response.
    + intros data H. discriminate H.
Qed.

(** A failure inside [generate_data] is logged twice, by [generate_data]
    and then by the endpoint, with the same message, which is also the
    message of the envelope; when nothing fails the handler of
    [generate_data] changes neither the result nor the log. *)
Theorem generator_failure_is_logged_twice
        (try_block : M DataPayload) (log log' : Log) (e : Exn) :
  try_block log = (Raised e, log') ->
  Backend.get_water_quality_data_with json_render_error
    (Guard.guarded try_block) log
  = (Returned
       (Backend.mkResponse
          (Backend.ErrorContent ("Internal Server Error: " ++ exn_str e)) 500),
     log' ++ [ ("Error in generate_data: " ++ exn_str e)%string;
               ("Error in /data endpoint: " ++ exn_str e)%string ]) /\
  (forall (other : M DataPayload) (l l' : Log) (data : DataPayload),
      other l = (Returned data, l') ->
      Guard.guarded other l = (Returned data, l')) /\
  (forall today d,
      exists body, Backend.generate_data png_base64 today d = Guard.guarded body).
Proof.
  intros Hraise. split; [|split].
  - assert (G : Guard.guarded try_block log
                = (Raised e, log' ++ [("Error in generate_data: " ++ exn_str e)%string])).
    { unfold Guard.guarded, try_except. rewrite Hraise. reflexivity. }
    rewrite (endpoint_on_failure json_render_error _ _ G).
    unfold error_response, error_line. rewrite <- app_assoc. reflexivity.
  - intros other l l' data H. unfold Guard.guarded, try_except.
    rewrite H. reflexivity.
  - intros today d. eexists. reflexivity.
Qed.

End PageAndBackend.

Lemma error_envelope_is_never_read_as_data_witness :
  exists response log',
    Backend.get_water_quality_data_with Json.dumps_error
      Scenario.generate_from_nothing []
    = (Py.Returned response, log') /\
    Dashboard.fetch_data Cases.status_text Cases.decode_first_pixel
      (Dashboard.Answer response)
    = Dashboard.Stopped
        (Dashboard.st_error "Error fetching data from backend: Server Error").
Proof.
  assert (Hrun : Backend.get_water_quality_data_with Json.dumps_error
                   Scenario.generate_from_nothing []
                 = (Py.Returned
                      (Spec.error_response
                         (Py.mkExn Py.IndexError
                                   "single positional indexer is out-of-bounds")),
                    [ "Error in /data endpoint: single positional indexer is out-of-bounds"%string ]))
    by reflexivity.
  do 2 eexists. split; [exact Hrun|].
  exact (proj1 (proj2 (@error_envelope_is_never_read_as_data
                         Json.dumps_error Cases.status_text
                         Cases.decode_first_pixel
                         Scenario.generate_from_nothing [] _ _ Hrun))
               _ eq_refl).
Defined.

(** Because no payload of the generator renders, the page never gets any
    data from the service: whatever the day and the draws, the answer is
    the error envelope with status 500, the status check raises, and the
    page shows the error box and stops. *)
Theorem page_always_stops_on_the_service
        (png_base64 : Backend.Image -> string)
        (http_error_message : Z -> string)
        (imread_base64 : string -> option Backend.Image)
        (today : Z) (d : Backend.Draws) (log : Py.Log) :
  exists response log',
    Backend.get_water_quality_data png_base64 Json.dumps_error today d log
    = (Py.Returned response, log') /\
    Backend.status_code response = 500%Z /\
    Dashboard.fetch_data http_error_message imread_base64
      (Dashboard.Answer response)
    = Dashboard.Stopped
        (Dashboard.st_error
           ("Error fetching data from backend: " ++ http_error_message 500%Z)).
Proof.
  destruct (get_water_quality_data_result png_base64 Json.dumps_error today d log)
    as (data & _ & H30 & _ & _ & _ & Hresp).
  assert (J : exists e, Json.dumps_error data = Some e).
  { unfold Json.dumps_error.
    destruct (Wire.historical_data data); [discriminate H30 | eexists; reflexivity]. }
  destruct J as [e J]. rewrite J in Hresp.
  do 2 eexists. split; [exact Hresp|]. split; [reflexivity|].
  apply fetch_error_response.
Qed.

Lemma generator_failure_is_logged_twice_witness :
  Backend.get_water_quality_data_with Json.dumps_error
    (Guard.guarded Scenario.generate_from_nothing) []
  = (Py.Returned
       (Backend.mkResponse
          (Backend.ErrorContent
             "Internal Server Error: single positional indexer is out-of-bounds")
          500),
     [ "Error in generate_data: single positional indexer is out-of-bounds";
       "Error in /data endpoint: single positional indexer is out-of-bounds" ]%string).
Proof.
  exact (proj1 (@generator_failure_is_logged_twice
                  Scenario.first_pixel_code Json.dumps_error
                  Scenario.generate_from_nothing [] []
                  (Py.mkExn Py.IndexError
                            "single positional indexer is out-of-bounds")
                  eq_refl)).
Defined.

(* ================================================================= *)
(** ** The trend chart *)

Section TrendChart.
Import Py Wire Spec.

Variable png_base64 : Backend.Image -> string.

Lemma last7_length {A} (xs : list A) :
  List.length (Dashboard.last7 xs) = Nat.min 7 (List.length xs).
Proof. unfold Dashboard.last7. rewrite length_skipn. lia. Qed.

Lemma last7_suffix {A} (xs : list A) :
  firstn (List.length xs - 7) xs ++ Dashboard.last7 xs = xs.
Proof. unfold Dashboard.last7. apply firstn_skipn. Qed.

Lemma last7_map {A B} (f : A -> B) (xs : list A) :
  Dashboard.last7 (map f xs) = map f (Dashboard.last7 xs).
Proof. unfold Dashboard.last7. rewrite length_map. apply skipn_map. Qed.

(** The chart draws the end of the history and the forecast.  Of any
    history it takes the last seven days, or all of them when there are
    fewer, in their order.  Of a generated payload it draws the readings
    of the seven days up to the current day, the last one being the latest
    reading, and then the three forecast points: ten consecutive days
    without gap or overlap. *)
Theorem trend_chart_window
        (today : Z) (d : Backend.Draws) (log : Log) (threshold : Q) :
  (forall (history : list Observation) (forecast : list ForecastPoint),
      let chart := Dashboard.trend_chart history forecast threshold in
      List.length (Dashboard.recent_dates chart)
      = Nat.min 7 (List.length history) /\
      List.length (Dashboard.recent_values chart)
      = Nat.min 7 (List.length history) /\
      (exists earlier,
          history = earlier ++ Dashboard.last7 history /\
          Dashboard.recent_dates chart = map date (Dashboard.last7 history) /\
          Dashboard.recent_values chart
          = map fecal_coliform (Dashboard.last7 history))) /\
  (exists data,
      Backend.generate_data png_base64 today d log = (Returned data, log) /\
      let chart :=
        Dashboard.trend_chart (historical_data data) (forecast_data data)
                              threshold in
      Dashboard.recent_dates chart ++ Dashboard.forecast_dates chart
      = map (fun i => (today - 6 + Z.of_nat i)%Z) (seq 0 10) /\
      Dashboard.recent_values chart
      = map (fun i => fecal_coliform (observation_at today d i)) (seq 23 7) /\
      last_opt (Dashboard.recent_values chart) = Some (latest_fecal data) /\
      List.length (Dashboard.forecast_values chart) = 3%nat).
Proof.
  split.
  - intros history forecast chart. subst chart.
    unfold Dashboard.trend_chart; cbn [Dashboard.recent_dates Dashboard.recent_values].
    rewrite !last7_map, !length_map, last7_length.
    split; [reflexivity|]. split; [reflexivity|].
    exists (firstn (List.length history - 7) history).
    split; [symmetry; apply last7_suffix|]. split; reflexivity.
  - destruct (generate_data_returns png_base64 today d log) as (trend & _ & Hrun).
    eexists. split; [exact Hrun|].
    cbn [historical_data forecast_data latest_fecal].
    unfold Dashboard.trend_chart;
      cbn [Dashboard.recent_dates Dashboard.recent_values
           Dashboard.forecast_dates Dashboard.forecast_values].
    rewrite !last7_map.
    change (Dashboard.last7 (range 30)) with (seq 23 7).
    rewrite !map_map.
    split; [|split; [|split]].
    + unfold linear_forecast, observation_at.
      cbn [map seq date fdate app].
      repeat (apply f_equal2; [lia|]). reflexivity.
    + reflexivity.
    + reflexivity.
    + reflexivity.
Qed.

End TrendChart.
